(** * ClearingHouseFilter: the record filter of [filter_clearinghouse_data.py]

    A shallow embedding of the script's [main] and of the pandas operations
    it calls, followed by the properties of the filter. *)

From Stdlib Require Import QArith Ascii.
From stdpp Require Import base option list strings gmap pretty sorting.

(** ** Cell values

    A pandas cell is a Python string, a number, or the floating-point
    not-a-number [NaN], which pandas uses both for a missing cell and for a
    failed numeric conversion. *)

Inductive number :=
  | Fin (q : Q)
  | PosInf
  | NegInf.

Inductive value :=
  | NaN
  | Str (s : string)
  | Num (x : number).

Global Instance value_inhabited : Inhabited value := populate NaN.

(** [x > 1] on a number. *)
Definition number_gt (x : number) (k : Q) : bool :=
  match x with
  | Fin q => negb (Qle_bool q k)
  | PosInf => true
  | NegInf => false
  end.

(** ** Column names (lines 26-36) *)

Definition COL_FIRST_NAME : string := "First Name".
Definition COL_MIDDLE_NAME : string := "Middle Initial".
Definition COL_LAST_NAME : string := "Last Name".
Definition COL_REQUESTER_ID : string := "Requester Return Field".
Definition COL_COLLEGE_NAME : string := "College Name".
Definition COL_ENROLLMENT_MAJOR : string := "Enrollment Major 1".
Definition COL_CLASS_LEVEL : string := "Class Level".
Definition COL_ENROLL_STATUS : string := "Enrollment Status".
Definition COL_ENROLL_DATE : string := "Enrollment End".
Definition COL_COLLEGE_SEQ : string := "College Sequence".
Definition COL_GRADUATED : string := "Graduated?".

(** ** Exceptions, the world and the monad of [main] *)

Inductive exn :=
  | ValueError (missing : list string)   (* "Missing expected columns: ..." *)
  | KeyError (c : string)                (* df[c] on an unknown column *)
  | TypeError.                           (* ordering a str against an int *)

(** What [DataFrame.to_csv(path, index=False)] leaves on disk: the header
    line and one line of cells per row. *)
Record Table := mkTable {
  header : list string;
  body : list (list value)
}.

(** The part of the outside world [main] acts on: the console and the files
    it has written. *)
Record World := mkWorld {
  stdout : list string;
  files : gmap string Table
}.

Definition M (A : Type) : Type := World → (exn + A) * World.

Global Instance M_ret : MRet M := λ A a w, (inr a, w).
Global Instance M_bind : MBind M := λ A B k m w,
  match m w with
  | (inl e, w') => (inl e, w')
  | (inr a, w') => k a w'
  end.

Definition raise {A} (e : exn) : M A := λ w, (inl e, w).

Definition lift {A} (r : exn + A) : M A := λ w, (r, w).

Definition print (line : string) : M unit :=
  λ w, (inr tt, mkWorld (stdout w ++ [line]) (files w)).

Definition when (b : bool) (m : M unit) : M unit := if b then m else mret tt.

Definition write_file (path : string) (t : Table) : M unit :=
  λ w, (inr tt, mkWorld (stdout w) (<[path := t]> (files w))).

(** ** Data frames

    A frame has its column labels and its rows; every row carries its index
    label, which boolean indexing keeps.  A cell a row does not hold is
    missing, that is [NaN]. *)

Record DataFrame := mkDataFrame {
  columns : list string;
  rows : list (nat * gmap string value)
}.

(** The input file as the pandas reader parses it: the header and, for each
    record, its text cells.  A cell the reader takes as missing, because it
    is empty or holds one of the missing-value markers (see [parse_file]
    below), is absent from the record. *)
Record CsvSource := mkCsvSource {
  src_header : list string;
  src_records : list (gmap string string)
}.

(** The frame [pd.read_csv(input_file, dtype=str)] builds from the parsed
    file: a cell that is present stays text, a missing one is [NaN], the
    index is [RangeIndex(0, n)].  Failures of the reader itself (no such
    file, an empty or malformed file) happen before any of this and are not
    part of the model. *)
Definition read_csv (src : CsvSource) : DataFrame :=
  mkDataFrame (src_header src)
              (zip (seq 0 (length (src_records src)))
                   (fmap (M := gmap string) Str <$> src_records src)).

(** [len(df)] *)
Definition len (df : DataFrame) : nat := length (rows df).

(** [df[c]]: the column as a Series (its values in row order). *)
Definition getitem (df : DataFrame) (c : string) : exn + list value :=
  if decide (c ∈ columns df)
  then inr ((λ r, r.2 !!! c) <$> rows df)
  else inl (KeyError c).

(** [df[c] = s] for a Series [s] computed from [df] itself: an existing
    column is replaced in place, a new one is appended. *)
Definition add_column (c : string) (cols : list string) : list string :=
  if decide (c ∈ cols) then cols else cols ++ [c].

Definition setitem (df : DataFrame) (c : string) (s : list value) : DataFrame :=
  mkDataFrame (add_column c (columns df))
              (zip_with (λ r v, (r.1, <[c := v]> r.2)) (rows df) s).

(** [df[mask]] for a boolean Series [mask] sharing the frame's index: the
    rows whose mask entry is [True], in order, labels kept. *)
Definition getitem_mask (df : DataFrame) (mask : list bool) : DataFrame :=
  mkDataFrame (columns df)
              ((filter (λ p, p.2 = true) (zip (rows df) mask)).*1).

(** [df[cols]] for a list of labels: the listed columns, in the listed
    order. *)
Definition getitem_cols (df : DataFrame) (cols : list string) : exn + DataFrame :=
  match filter (λ c, c ∉ columns df) cols with
  | [] => inr (mkDataFrame cols
                 ((λ r, (r.1, filter (λ kv, kv.1 ∈ cols) r.2)) <$> rows df))
  | c :: _ => inl (KeyError c)
  end.

(** [df.to_csv(path, index=False)]: the header and the cells handed to the
    writer, row by row.  How the writer renders a cell as text, and its
    input/output errors, are not part of the model. *)
Definition to_csv (df : DataFrame) (path : string) : M unit :=
  write_file path
    (mkTable (columns df) ((λ r, (λ c, r.2 !!! c) <$> columns df) <$> rows df)).

(** The library functions the script relies on: Python's [str.upper] and
    [str.strip], and the text-to-number conversion of pandas, [None] for
    text that is not a number. *)
Class Library := mkLibrary {
  upper : string → string;
  strip : string → string;
  parse_number : string → option number
}.

Section Pipeline.

Context `{Library}.

(** ** Series operations

    A Series is the list of its values in row order; all Series below are
    derived from one frame and share its index, so pandas combines them
    position by position. *)

(** One element of [pd.to_numeric(s, errors="coerce")]: the number the
    text stands for, [NaN] when it stands for none.  The dtype pandas gives
    the column as a whole (int64 when every cell is an integer, float64
    otherwise), which decides how the numbers are written, is not
    modelled; comparing with 1 does not depend on it. *)
Definition to_numeric1 (v : value) : value :=
  match v with
  | Str s => match parse_number s with Some x => Num x | None => NaN end
  | Num x => Num x
  | NaN => NaN
  end.

Definition to_numeric (s : list value) : list value := to_numeric1 <$> s.

(** One element of [s.str.upper()] / [s.str.strip()] on a column read with
    [dtype=str], whose cells are strings or missing: a missing element
    stays [NaN]. *)
Definition str_upper1 (v : value) : value :=
  match v with Str s => Str (upper s) | _ => NaN end.
Definition str_strip1 (v : value) : value :=
  match v with Str s => Str (strip s) | _ => NaN end.

Definition str_upper (s : list value) : list value := str_upper1 <$> s.
Definition str_strip (s : list value) : list value := str_strip1 <$> s.

(** One element of [s > k]: [NaN > k] is [False], a string cannot be
    ordered against a number. *)
Definition gt1 (k : Q) (v : value) : exn + bool :=
  match v with
  | Num x => inr (number_gt x k)
  | NaN => inr false
  | Str _ => inl TypeError
  end.

Fixpoint gt (s : list value) (k : Q) : exn + list bool :=
  match s with
  | [] => inr []
  | v :: s' =>
      match gt1 k v with
      | inl e => inl e
      | inr b => match gt s' k with
                 | inl e => inl e
                 | inr bs => inr (b :: bs)
                 end
      end
  end.

(** One element of [s.isin(set)] for a set of strings. *)
Definition isin1 (set : list string) (v : value) : bool :=
  match v with Str s => bool_decide (s ∈ set) | _ => false end.
Definition isin (s : list value) (set : list string) : list bool :=
  isin1 set <$> s.

(** One element of [s != y] for a string [y]: [NaN != y] is [True]. *)
Definition ne1 (y : string) (v : value) : bool :=
  match v with Str s => negb (bool_decide (s = y)) | _ => true end.
Definition ne (s : list value) (y : string) : list bool := ne1 y <$> s.

(** [~m] and [m1 & m2] on boolean Series. *)
Definition mask_not (m : list bool) : list bool := negb <$> m.
Definition mask_and (m1 m2 : list bool) : list bool := zip_with andb m1 m2.

(** ** The script *)

Definition required_cols : list string :=
  [ COL_FIRST_NAME; COL_MIDDLE_NAME; COL_LAST_NAME; COL_REQUESTER_ID;
    COL_COLLEGE_NAME; COL_ENROLLMENT_MAJOR; COL_CLASS_LEVEL;
    COL_ENROLL_STATUS; COL_ENROLL_DATE; COL_COLLEGE_SEQ; COL_GRADUATED ].

Definition output_cols : list string :=
  [ COL_FIRST_NAME;
    COL_MIDDLE_NAME;
    COL_LAST_NAME;
    COL_REQUESTER_ID;
    COL_COLLEGE_NAME;
    COL_ENROLLMENT_MAJOR;
    COL_CLASS_LEVEL;
    COL_ENROLL_STATUS;
    COL_ENROLL_DATE;
    COL_COLLEGE_SEQ;
    COL_GRADUATED ].

(** Lines 41-54: read the file and check the header. *)
Definition load (src : CsvSource) : M DataFrame :=
  let input_file := "ClearingHouse_2025.csv" in
  print ("Reading CSV: " +:+ input_file);;
  let df := read_csv src in
  let missing := filter (λ c, c ∉ columns df) required_cols in
  match missing with
  | [] => mret df
  | _ => raise (ValueError missing)
  end.

(** Lines 60-62: the numeric College Sequence and the two normalised
    columns. *)
Definition normalize (df : DataFrame) : M DataFrame :=
  college_seq ← lift (getitem df COL_COLLEGE_SEQ);
  let df := setitem df COL_COLLEGE_SEQ (to_numeric college_seq) in
  status ← lift (getitem df COL_ENROLL_STATUS);
  let df := setitem df "_status_norm" (str_strip (str_upper status)) in
  grad ← lift (getitem df COL_GRADUATED);
  let df := setitem df "_grad_norm" (str_strip (str_upper grad)) in
  mret df.

(** Lines 65-68: sequence > 1 and status not W/D. *)
Definition global_filters (df : DataFrame) : M DataFrame :=
  college_seq ← lift (getitem df COL_COLLEGE_SEQ);
  mask_seq_gt1 ← lift (gt college_seq 1);
  status_norm ← lift (getitem df "_status_norm");
  let mask_status := mask_not (isin status_norm ["W"; "D"]) in
  (* .copy(): the result shares nothing with df *)
  mret (getitem_mask df (mask_and mask_seq_gt1 mask_status)).

(** Line 74: drop the rows with Graduated? = Y. *)
Definition remove_graduated (df_final : DataFrame) : M DataFrame :=
  grad ← lift (getitem df_final COL_GRADUATED);
  mret (getitem_mask df_final (ne (str_strip (str_upper grad)) "Y")).

(** Line 74 rewritten to read the derived column [_grad_norm] instead of
    normalising [Graduated?] again. *)
Definition remove_graduated_norm (df_final : DataFrame) : M DataFrame :=
  grad_norm ← lift (getitem df_final "_grad_norm");
  mret (getitem_mask df_final (ne grad_norm "Y")).

(** Lines 41-77: everything up to the final frame [df_final]. *)
Definition filtered (DEBUG : bool) (src : CsvSource) : M DataFrame :=
  df ← load src;
  when DEBUG (print ("Total rows: " +:+ pretty (len df)));;
  df ← normalize df;
  df_final ← global_filters df;
  when DEBUG
    (print ("Rows after seq>1 & status filters: " +:+ pretty (len df_final)));;
  df_final ← remove_graduated df_final;
  when DEBUG
    (print ("Rows after removing Graduated=Y: " +:+ pretty (len df_final)));;
  mret df_final.

Definition main (DEBUG : bool) (src : CsvSource) : M unit :=
  df_final ← filtered DEBUG src;
  out ← lift (getitem_cols df_final output_cols);
  to_csv out "clearinghouse_filtered_output.csv";;
  print "✔ Output written → clearinghouse_filtered_output.csv".

End Pipeline.

(** ** An instance of the library functions on ASCII text

    Python's [str.upper] and [str.strip] restricted to ASCII, and the
    conversion of plain decimal numerals ([-12], [2.50], [inf]).  The
    theorems below hold for every choice of the three functions; this
    instance runs the script on concrete tables. *)

Definition ascii_upper1 (c : ascii) : ascii :=
  let n := nat_of_ascii c in
  if (97 <=? n)%nat && (n <=? 122)%nat then ascii_of_nat (n - 32) else c.

Fixpoint ascii_upper (s : string) : string :=
  match s with
  | EmptyString => EmptyString
  | String c s' => String (ascii_upper1 c) (ascii_upper s')
  end.

Definition ascii_space (c : ascii) : bool :=
  let n := nat_of_ascii c in
  (n =? 32)%nat || ((9 <=? n)%nat && (n <=? 13)%nat) ||
  ((28 <=? n)%nat && (n <=? 31)%nat).

Fixpoint lstrip (l : list ascii) : list ascii :=
  match l with
  | c :: l' => if ascii_space c then lstrip l' else l
  | [] => []
  end.

Definition ascii_strip (s : string) : string :=
  String.string_of_list_ascii
    (reverse (lstrip (reverse (lstrip (String.list_ascii_of_string s))))).

Definition digit_of (c : ascii) : option Z :=
  let n := nat_of_ascii c in
  if (48 <=? n)%nat && (n <=? 57)%nat then Some (Z.of_nat (n - 48)) else None.

(** Digits before the point accumulate in [acc]; [scale] counts the digits
    read after the point ([None] before it). *)
Fixpoint decimal_digits (l : list ascii) (acc : Z) (scale : option nat)
    (seen : bool) : option Q :=
  match l with
  | [] =>
      if seen
      then Some (Qmake acc (Pos.of_nat (10 ^ default 0%nat scale)))
      else None
  | c :: l' =>
      match digit_of c with
      | Some d => decimal_digits l' (10 * acc + d) (S <$> scale) true
      | None =>
          if Ascii.eqb c "."%char then
            match scale with
            | None => decimal_digits l' acc (Some 0%nat) seen
            | Some _ => None
            end
          else None
      end
  end.

Definition decimal_unsigned (l : list ascii) : option number :=
  if bool_decide (ascii_upper (String.string_of_list_ascii l) = "INF") then Some PosInf
  else Fin <$> decimal_digits l 0 None false.

Definition number_opp (x : number) : number :=
  match x with
  | Fin q => Fin (Qopp q)
  | PosInf => NegInf
  | NegInf => PosInf
  end.

Definition decimal_number (s : string) : option number :=
  match String.list_ascii_of_string (ascii_strip s) with
  | c :: l =>
      if Ascii.eqb c "-"%char then number_opp <$> decimal_unsigned l
      else if Ascii.eqb c "+"%char then decimal_unsigned l
      else decimal_unsigned (c :: l)
  | [] => None
  end.

Definition ascii_library : Library :=
  mkLibrary ascii_upper ascii_strip decimal_number.

Definition run_main (DEBUG : bool) (src : CsvSource) : M unit :=
  @main ascii_library DEBUG src.

Definition empty_world : World := mkWorld [] ∅.

(** A record with the three cells the filter reads and a name. *)
Definition record (name seq_ status grad : string) : gmap string string :=
  {[ COL_FIRST_NAME := name; COL_COLLEGE_SEQ := seq_;
     COL_ENROLL_STATUS := status; COL_GRADUATED := grad ]}.

Definition scenarios : CsvSource :=
  mkCsvSource (required_cols ++ ["Extra"])
    [ record "A" "2" "E" "N";
      record "B" "2" "w" "N";
      record "C" "1" "E" "N";
      record "D" "3" "E" "y";
      record "E" "abc" "E" "N" ].

(** ** The filter seen row by row

    The script works column by column; these definitions give the same
    computation for one row, and the eligibility rule in the words of the
    specification. *)

Section Rows.

Context `{Library}.

(** The cells lines 60-62 write into one row. *)
Definition normalize_row (r : gmap string value) : gmap string value :=
  let r := <[COL_COLLEGE_SEQ := to_numeric1 (r !!! COL_COLLEGE_SEQ)]> r in
  let r := <["_status_norm" :=
               str_strip1 (str_upper1 (r !!! COL_ENROLL_STATUS))]> r in
  <["_grad_norm" := str_strip1 (str_upper1 (r !!! COL_GRADUATED))]> r.

(** [gt1] on a numeric column, where it cannot raise. *)
Definition gt_numeric1 (k : Q) (v : value) : bool :=
  match v with Num x => number_gt x k | _ => false end.

(** The entry of [mask_seq_gt1 & mask_status] for one row. *)
Definition global_mask1 (r : gmap string value) : bool :=
  gt_numeric1 1 (r !!! COL_COLLEGE_SEQ) &&
  negb (isin1 ["W"; "D"] (r !!! "_status_norm")).

(** The frames [normalize] and the two filters return, row by row. *)
Definition normalize_frame (df : DataFrame) : DataFrame :=
  mkDataFrame
    (add_column "_grad_norm"
       (add_column "_status_norm" (add_column COL_COLLEGE_SEQ (columns df))))
    (prod_map id normalize_row <$> rows df).

(** The entry of the mask of line 74 for one row. *)
Definition graduated_mask1 (r : gmap string value) : bool :=
  ne1 "Y" (str_strip1 (str_upper1 (r !!! COL_GRADUATED))).

Definition filter_frame (f : gmap string value → bool) (df : DataFrame)
    : DataFrame :=
  mkDataFrame (columns df) (filter (λ r, f r.2 = true) (rows df)).

(** The frame [filtered] returns when the header check passes. *)
Definition final_frame (src : CsvSource) : DataFrame :=
  filter_frame graduated_mask1
    (filter_frame global_mask1 (normalize_frame (read_csv src))).

(** The same decision taken from the derived column [_grad_norm]. *)
Definition grad_norm_mask1 (r : gmap string value) : bool :=
  ne1 "Y" (r !!! "_grad_norm").

(** The College Sequence of a record as a number, when it parses. *)
Definition seq_number (r : gmap string string) : option number :=
  r !! COL_COLLEGE_SEQ ≫= parse_number.

(** Uppercased, whitespace-trimmed Enrollment Status and Graduated? flag;
    [None] for a missing cell. *)
Definition status_norm (r : gmap string string) : option string :=
  (λ s, strip (upper s)) <$> r !! COL_ENROLL_STATUS.
Definition grad_norm (r : gmap string string) : option string :=
  (λ s, strip (upper s)) <$> r !! COL_GRADUATED.

(** A number strictly greater than 1. *)
Definition gt_one (x : number) : Prop :=
  match x with
  | Fin q => (1 < q)%Q
  | PosInf => True
  | NegInf => False
  end.

(** The eligibility rule of the specification. *)
Definition eligible (r : gmap string string) : Prop :=
  (∃ x, seq_number r = Some x ∧ gt_one x) ∧
  (status_norm r ∉ [Some "W"; Some "D"]) ∧
  (grad_norm r ≠ Some "Y").

(** The row [filtered] makes of an eligible record. *)
Definition final_row (r : gmap string string) : gmap string value :=
  normalize_row (Str <$> r).

(** Both masks on the row made of a record. *)
Definition keep (r : gmap string string) : bool :=
  global_mask1 (final_row r) && graduated_mask1 (final_row r).

(** The line [to_csv] writes for a row of the final frame. *)
Definition output_line (r : gmap string value) : list value :=
  (λ c, r !!! c) <$> output_cols.

End Rows.

(** The world after some more lines have been printed. *)
Definition say (w : World) (lines : list string) : World :=
  mkWorld (stdout w ++ lines) (files w).

(** The records of the source with their positions in the file. *)
Definition indexed (src : CsvSource) : list (nat * gmap string string) :=
  zip (seq 0 (length (src_records src))) (src_records src).

(** The index labels of a frame. *)
Definition labels (df : DataFrame) : list nat := (rows df).*1.

(** What a run leaves in the output file. *)
Definition output_of (w : World) : option Table :=
  files w !! "clearinghouse_filtered_output.csv".

(** The header check passes: every required column is in the header. *)
Definition schema_ok (src : CsvSource) : Prop :=
  Forall (λ c, c ∈ src_header src) required_cols.

Global Instance schema_ok_dec src : Decision (schema_ok src) :=
  Forall_dec (λ c, c ∈ src_header src) required_cols.

(** A cell of the input table as [read_csv] hands it to the script. *)
Definition cell (r : gmap string string) (c : string) : value :=
  match r !! c with Some s => Str s | None => NaN end.

(** A source whose header lacks a required column, and one with records
    whose status and graduated cells are missing. *)
Definition no_graduated_column : CsvSource :=
  mkCsvSource (filter (λ c, c ≠ COL_GRADUATED) required_cols)
    [ {[ COL_FIRST_NAME := "A"; COL_COLLEGE_SEQ := "2" ]} ].

Definition missing_cells : CsvSource :=
  mkCsvSource required_cols
    [ {[ COL_FIRST_NAME := "A"; COL_COLLEGE_SEQ := "2" ]};
      {[ COL_FIRST_NAME := "B"; COL_COLLEGE_SEQ := "1" ]};
      {[ COL_FIRST_NAME := "C"; COL_COLLEGE_SEQ := "3";
         COL_ENROLL_STATUS := " d " ]};
      {[ COL_FIRST_NAME := "D"; COL_COLLEGE_SEQ := "2.5" ]} ].

(** ** The run as a whole

    What a run prints and writes, in terms of the records of the source. *)

Section Run.

Context `{Library}.

(** The records that pass the global filters, and those that also pass the
    graduated check. *)
Definition passed_global (src : CsvSource) : list (gmap string string) :=
  filter (λ r, global_mask1 (final_row r) = true) (src_records src).

Definition kept (src : CsvSource) : list (gmap string string) :=
  filter (λ r, keep r = true) (src_records src).

End Run.

(** The lines a run that passes the header check prints, given the row
    counts of the three stages. *)
Definition stage_lines (DEBUG : bool) (total stage1 stage2 : nat)
    : list string :=
  ["Reading CSV: ClearingHouse_2025.csv"] ++
  (if DEBUG then ["Total rows: " +:+ pretty total] else []) ++
  (if DEBUG
   then ["Rows after seq>1 & status filters: " +:+ pretty stage1] else []) ++
  (if DEBUG
   then ["Rows after removing Graduated=Y: " +:+ pretty stage2] else []) ++
  ["✔ Output written → clearinghouse_filtered_output.csv"].

(** Two records hold the same cells in the required columns. *)
Definition agree_on_required (r1 r2 : gmap string string) : Prop :=
  ∀ c, c ∈ required_cols → r1 !! c = r2 !! c.

(** Two records hold the same cells in the three columns the filter
    reads. *)
Definition agree_on_filter_columns (r1 r2 : gmap string string) : Prop :=
  r1 !! COL_COLLEGE_SEQ = r2 !! COL_COLLEGE_SEQ ∧
  r1 !! COL_ENROLL_STATUS = r2 !! COL_ENROLL_STATUS ∧
  r1 !! COL_GRADUATED = r2 !! COL_GRADUATED.

(** The scenarios again, under a header in another order that also names a
    column called like a derived one, with cells in it. *)
Definition scenarios_reordered : CsvSource :=
  mkCsvSource ("_status_norm" :: reverse required_cols)
    (<["_status_norm" := "W"]> <$> src_records scenarios).

(** The scenarios with other names in the First Name column. *)
Definition scenarios_renamed : CsvSource :=
  mkCsvSource required_cols
    (<[COL_FIRST_NAME := "Z"]> <$> src_records scenarios).

(** ** The file as text

    What the pandas reader does to the text of a field before the script
    sees it. *)

(** The markers [pd.read_csv] takes as missing when called, as here, with
    its default [na_values] and [keep_default_na]. *)
Definition STR_NA_VALUES : list string :=
  [ EmptyString; "#N/A"; "#N/A N/A"; "#NA"; "-1.#IND"; "-1.#QNAN"; "-NaN";
    "-nan"; "1.#IND"; "1.#QNAN"; "<NA>"; "N/A"; "NA"; "NULL"; "NaN"; "None";
    "n/a"; "nan"; "null" ].

(** The file split into fields: the header and, for each record, the text
    of its fields. *)
Record CsvFile := mkCsvFile {
  file_header : list string;
  file_records : list (gmap string string)
}.

(** The fields of a record the reader keeps as cells. *)
Definition na_filter (r : gmap string string) : gmap string string :=
  filter (λ kv, kv.2 ∉ STR_NA_VALUES) r.

Definition parse_file (f : CsvFile) : CsvSource :=
  mkCsvSource (file_header f) (na_filter <$> file_records f).




(** A file whose only record has the text NA as first name. *)
Definition na_name_file : CsvFile :=
  mkCsvFile required_cols
    [ {[ COL_FIRST_NAME := "NA"; COL_MIDDLE_NAME := "Q";
         COL_LAST_NAME := "Doe"; COL_REQUESTER_ID := "17";
         COL_COLLEGE_NAME := "State College";
         COL_ENROLLMENT_MAJOR := "History"; COL_CLASS_LEVEL := "F";
         COL_ENROLL_STATUS := "E"; COL_ENROLL_DATE := "20250515";
         COL_COLLEGE_SEQ := "2"; COL_GRADUATED := "N" ]} ].

(** * Properties *)

Section ListFacts.
Context {A B C : Type}.

Lemma mask_filter (f : A → bool) (l : list A) :
  (filter (λ p, p.2 = true) (zip l (f <$> l))).*1 = filter (λ x, f x = true) l.
Proof.
  induction l as [|x l IH]; csimpl; [done|].
  rewrite !filter_cons. simpl. destruct (decide (f x = true)); csimpl; by rewrite IH.
Qed.
End ListFacts.

Lemma filter_fmap_comm {A B} (f : A → B) (P : B → Prop)
    `{!∀ y, Decision (P y)} (l : list A) :
  filter P (f <$> l) = f <$> filter (λ x, P (f x)) l.
Proof.
  induction l as [|x l IH]; csimpl; [done|].
  rewrite !filter_cons. destruct (decide (P (f x))); csimpl; by rewrite IH.
Qed.

Lemma StronglySorted_sublist {A} (R : relation A) (l1 l2 : list A) :
  l1 `sublist_of` l2 → StronglySorted R l2 → StronglySorted R l1.
Proof.
  induction 1 as [|x l1 l2 Hl IH|x l1 l2 Hl IH]; rewrite ?StronglySorted_cons.
  - done.
  - intros [Hx Hs]. split; [|by apply IH].
    rewrite Forall_forall in *. intros y Hy. apply Hx.
    by eapply elem_of_sublist.
  - intros [_ Hs]. by apply IH.
Qed.

Lemma StronglySorted_seq j n : StronglySorted lt (seq j n).
Proof.
  revert j. induction n as [|n IH]; intros j; simpl; [constructor|].
  apply StronglySorted_cons. split; [|apply IH].
  apply Forall_forall. intros k Hk. apply elem_of_seq in Hk. lia.
Qed.

Lemma elem_of_zip_seq {A} (l : list A) i x :
  (i, x) ∈ zip (seq 0 (length l)) l ↔ l !! i = Some x.
Proof.
  rewrite list_elem_of_lookup. split.
  - intros [k Hk]. apply lookup_zip_Some in Hk as [Hi Hx].
    apply lookup_seq in Hi as [-> _]. done.
  - intros Hx. exists i. apply lookup_zip_Some. split; [|done].
    apply lookup_seq. split; [done|]. by eapply lookup_lt_Some.
Qed.

Lemma zip_fmap_snd {A B C} (f : B → C) (l : list A) (k : list B) :
  zip l (f <$> k) = prod_map id f <$> zip l k.
Proof.
  revert k. induction l as [|x l IH]; intros [|y k]; csimpl; try done.
  by rewrite IH.
Qed.

Lemma mask_and_fmap {A} (f g : A → bool) (l : list A) :
  mask_and (f <$> l) (g <$> l) = (λ x, f x && g x) <$> l.
Proof. unfold mask_and. induction l as [|x l IH]; csimpl; [done|]. by rewrite IH. Qed.

Lemma gt_numeric (s : list value) k :
  Forall (λ v, ∀ t, v ≠ Str t) s → gt s k = inr (gt_numeric1 k <$> s).
Proof.
  induction 1 as [|v s Hv _ IH]; csimpl; [done|].
  rewrite IH. destruct v as [|t|x]; simpl; try done. by destruct (Hv t).
Qed.

Lemma elem_of_add_column c c' cols :
  c ∈ add_column c' cols ↔ c = c' ∨ c ∈ cols.
Proof.
  unfold add_column. destruct (decide (c' ∈ cols)).
  - split; [by right|]. by intros [->|].
  - rewrite elem_of_app, list_elem_of_singleton. split; intros [|]; auto.
Qed.

Lemma getitem_elem df c :
  c ∈ columns df → getitem df c = inr ((λ r, r.2 !!! c) <$> rows df).
Proof. intros Hc. unfold getitem. by rewrite decide_True. Qed.

Lemma getitem_mask_fmap df (f : gmap string value → bool) :
  getitem_mask df ((λ r, f r.2) <$> rows df) = filter_frame f df.
Proof. unfold getitem_mask, filter_frame. f_equal. apply (mask_filter (λ r, f r.2)). Qed.

Lemma bind_inr {A B} (m : M A) (k : A → M B) w a w' :
  m w = (inr a, w') → (m ≫= k) w = k a w'.
Proof. intros Hm. unfold mbind, M_bind. by rewrite Hm. Qed.

Lemma bind_inl {A B} (m : M A) (k : A → M B) w e w' :
  m w = (inl e, w') → (m ≫= k) w = (inl e, w').
Proof. intros Hm. unfold mbind, M_bind. by rewrite Hm. Qed.

Lemma say_say w l1 l2 : say (say w l1) l2 = say w (l1 ++ l2).
Proof. unfold say. simpl. by rewrite app_assoc. Qed.

Lemma when_print b line w :
  when b (print line) w = (inr tt, say w (if b then [line] else [])).
Proof.
  destruct b; simpl; [done|]. unfold mret, M_ret, say.
  rewrite app_nil_r. by destruct w.
Qed.

Lemma filter_missing_nil (cols l : list string) :
  filter (λ c, c ∉ cols) l = [] ↔ Forall (λ c, c ∈ cols) l.
Proof.
  induction l as [|c l IH]; [by rewrite filter_nil|].
  rewrite filter_cons, Forall_cons. destruct (decide (c ∉ cols)) as [Hc|Hc].
  - split; [done|]. by intros [? _].
  - rewrite IH. apply dec_stable in Hc. tauto.
Qed.


Lemma lookup_total_filter_cols (r : gmap string value) (cols : list string) c :
  c ∈ cols → filter (λ kv, kv.1 ∈ cols) r !!! c = r !!! c.
Proof.
  intros Hc. rewrite !lookup_total_alt, map_lookup_filter.
  destruct (r !! c) as [v|]; simpl; [|done].
  by rewrite option_guard_True.
Qed.

Lemma getitem_cols_ok df cols :
  Forall (λ c, c ∈ columns df) cols →
  getitem_cols df cols
  = inr (mkDataFrame cols
           ((λ r, (r.1, filter (λ kv, kv.1 ∈ cols) r.2)) <$> rows df)).
Proof. intros Hc. unfold getitem_cols. apply filter_missing_nil in Hc. by rewrite Hc. Qed.

Lemma project_lines (rs : list (nat * gmap string value)) (cols : list string) :
  (λ r, (λ c, r.2 !!! c) <$> cols)
    <$> ((λ r, (r.1, filter (λ kv, kv.1 ∈ cols) r.2)) <$> rs)
  = (λ r : gmap string value, (λ c, r !!! c) <$> cols) <$> rs.*2.
Proof.
  rewrite <-!list_fmap_compose. apply list_fmap_ext. intros _ [i r] _. simpl.
  apply list_fmap_ext. intros k c Hc. simpl.
  apply lookup_total_filter_cols. by eapply list_elem_of_lookup_2.
Qed.

Section Steps.
Context `{Library}.

Lemma normalize_spec df w :
  COL_COLLEGE_SEQ ∈ columns df → COL_ENROLL_STATUS ∈ columns df →
  COL_GRADUATED ∈ columns df →
  normalize df w = (inr (normalize_frame df), w).
Proof.
  intros Hs Hst Hg. unfold normalize.
  unfold mbind, M_bind, lift, mret, M_ret.
  rewrite (getitem_elem _ _ Hs).
  rewrite getitem_elem by (simpl; rewrite elem_of_add_column; auto).
  rewrite getitem_elem by (simpl; rewrite !elem_of_add_column; auto).
  unfold normalize_frame, setitem. simpl. do 3 f_equal.
  unfold to_numeric, str_strip, str_upper.
  generalize (rows df). intros rs.
  induction rs as [|[i r] rs IH]; csimpl; [done|].
  by rewrite IH.
Qed.

Lemma global_filters_spec df w :
  COL_COLLEGE_SEQ ∈ columns df → "_status_norm" ∈ columns df →
  Forall (λ r, ∀ t, r.2 !!! COL_COLLEGE_SEQ ≠ Str t) (rows df) →
  global_filters df w = (inr (filter_frame global_mask1 df), w).
Proof.
  intros Hs Hst Hnum. unfold global_filters.
  unfold mbind, M_bind, lift, mret, M_ret.
  rewrite !getitem_elem by done.
  rewrite gt_numeric by (by apply Forall_fmap).
  unfold mask_not, isin. rewrite <-!list_fmap_compose, mask_and_fmap.
  by rewrite <-getitem_mask_fmap.
Qed.

Lemma remove_graduated_spec df w :
  COL_GRADUATED ∈ columns df →
  remove_graduated df w = (inr (filter_frame graduated_mask1 df), w).
Proof.
  intros Hg. unfold remove_graduated.
  unfold mbind, M_bind, lift, mret, M_ret.
  rewrite !getitem_elem by done.
  unfold ne, str_strip, str_upper. rewrite <-!list_fmap_compose.
  by rewrite <-getitem_mask_fmap.
Qed.

Lemma load_ok src w :
  schema_ok src →
  load src w = (inr (read_csv src), say w ["Reading CSV: ClearingHouse_2025.csv"]).
Proof.
  intros Hok. unfold load, mbind, M_bind, print. simpl.
  apply filter_missing_nil in Hok. by rewrite Hok.
Qed.

Lemma load_missing src w :
  ¬ schema_ok src →
  ∃ missing, missing ≠ [] ∧
    missing = filter (λ c, c ∉ src_header src) required_cols ∧
    load src w = (inl (ValueError missing),
                  say w ["Reading CSV: ClearingHouse_2025.csv"]).
Proof.
  intros Hok. unfold schema_ok in Hok. rewrite <-filter_missing_nil in Hok.
  unfold load, mbind, M_bind, print. cbn [read_csv columns].
  destruct (filter _ required_cols) as [|c l] eqn:E; [done|].
  by exists (c :: l).
Qed.

Lemma normalize_row_seq r :
  normalize_row r !!! COL_COLLEGE_SEQ = to_numeric1 (r !!! COL_COLLEGE_SEQ).
Proof.
  unfold normalize_row.
  rewrite !lookup_total_insert_ne by done. apply lookup_total_insert_eq.
Qed.

Lemma normalize_row_status r :
  normalize_row r !!! "_status_norm"
  = str_strip1 (str_upper1 (r !!! COL_ENROLL_STATUS)).
Proof.
  unfold normalize_row.
  rewrite lookup_total_insert_ne by done. rewrite lookup_total_insert_eq.
  by rewrite lookup_total_insert_ne by done.
Qed.

Lemma normalize_row_grad r :
  normalize_row r !!! "_grad_norm"
  = str_strip1 (str_upper1 (r !!! COL_GRADUATED)).
Proof.
  unfold normalize_row.
  rewrite lookup_total_insert_eq.
  by rewrite !lookup_total_insert_ne by done.
Qed.

Lemma normalize_row_other r c :
  c ≠ COL_COLLEGE_SEQ → c ≠ "_status_norm" → c ≠ "_grad_norm" →
  normalize_row r !!! c = r !!! c.
Proof.
  intros. unfold normalize_row. by rewrite !lookup_total_insert_ne by done.
Qed.

Lemma to_numeric1_not_str v t : to_numeric1 v ≠ Str t.
Proof. destruct v as [|s|x]; simpl; [done| |done]. by destruct (parse_number s). Qed.

Lemma schema_ok_elem src c : schema_ok src → c ∈ required_cols → c ∈ src_header src.
Proof. unfold schema_ok. rewrite Forall_forall. auto. Qed.

Lemma filtered_ok DEBUG src :
  schema_ok src →
  ∃ lines, ∀ w, filtered DEBUG src w = (inr (final_frame src), say w lines).
Proof.
  intros Hok.
  assert (∀ c, c ∈ required_cols → c ∈ columns (read_csv src)) as Hcols
    by (intros c; apply schema_ok_elem, Hok).
  eexists. intros w. unfold filtered.
  erewrite bind_inr by (by apply load_ok).
  erewrite bind_inr by apply when_print.
  erewrite bind_inr by (apply normalize_spec; apply Hcols; set_solver).
  erewrite bind_inr.
  2:{ apply global_filters_spec; simpl.
      - rewrite !elem_of_add_column. auto.
      - rewrite !elem_of_add_column. auto.
      - apply Forall_fmap, Forall_forall. intros [i r] _ t. simpl.
        rewrite normalize_row_seq. apply to_numeric1_not_str. }
  erewrite bind_inr by apply when_print.
  erewrite bind_inr.
  2:{ apply remove_graduated_spec. simpl. rewrite !elem_of_add_column.
      do 3 right. apply Hcols. set_solver. }
  erewrite bind_inr by apply when_print.
  unfold mret, M_ret. rewrite !say_say. reflexivity.
Qed.

Lemma main_ok DEBUG src :
  schema_ok src →
  ∃ lines, ∀ w,
    main DEBUG src w
    = (inr tt,
       mkWorld (stdout w ++ lines)
         (<["clearinghouse_filtered_output.csv" :=
              mkTable output_cols (output_line <$> (rows (final_frame src)).*2)]>
            (files w))).
Proof.
  intros Hok. destruct (filtered_ok DEBUG src Hok) as [lines Hf].
  eexists. intros w. unfold main.
  erewrite bind_inr by apply Hf.
  erewrite bind_inr.
  2:{ unfold lift. rewrite getitem_cols_ok; [done|].
      apply Forall_forall. intros c Hc. simpl. rewrite !elem_of_add_column.
      do 3 right. by apply schema_ok_elem. }
  unfold to_csv, write_file, print, mbind, M_bind.
  cbn [columns rows stdout files say fst snd]. rewrite project_lines.
  by rewrite <-app_assoc.
Qed.

Lemma main_missing DEBUG src :
  ¬ schema_ok src →
  ∃ missing, missing ≠ [] ∧
    missing = filter (λ c, c ∉ src_header src) required_cols ∧
    ∀ w, main DEBUG src w
         = (inl (ValueError missing),
            say w ["Reading CSV: ClearingHouse_2025.csv"]).
Proof.
  intros Hno. destruct (load_missing src (mkWorld [] ∅) Hno) as (m & Hm & -> & _).
  eexists. split; [done|]. split; [done|]. intros w.
  destruct (load_missing src w Hno) as (m & _ & -> & Hw).
  unfold main, filtered. erewrite bind_inl; [done|]. by erewrite bind_inl.
Qed.

Lemma cell_lookup (r : gmap string string) c :
  (Str <$> r : gmap string value) !!! c = cell r c.
Proof. unfold cell. rewrite lookup_total_alt, lookup_fmap. by destruct (r !! c). Qed.

Lemma rows_final src :
  rows (final_frame src)
  = prod_map id final_row <$> filter (λ p, keep p.2 = true) (indexed src).
Proof.
  unfold final_frame, filter_frame, normalize_frame, read_csv, indexed.
  cbn [rows columns]. rewrite list_filter_filter, zip_fmap_snd.
  rewrite <-list_fmap_compose, filter_fmap_comm.
  erewrite list_filter_iff; [apply list_fmap_ext; by intros _ [i r] _|].
  intros [i r]. unfold keep, final_row. simpl.
  rewrite andb_true_iff. tauto.
Qed.

Lemma number_gt_one x : number_gt x 1 = true ↔ gt_one x.
Proof.
  destruct x as [q| |]; simpl; [|done|done].
  rewrite negb_true_iff, <-not_true_iff_false, Qle_bool_iff.
  split; [apply Qnot_le_lt|apply Qlt_not_le].
Qed.

Lemma seq_mask_spec r :
  gt_numeric1 1 (final_row r !!! COL_COLLEGE_SEQ) = true
  ↔ ∃ x, seq_number r = Some x ∧ gt_one x.
Proof.
  unfold final_row, seq_number. rewrite normalize_row_seq, cell_lookup. unfold cell.
  destruct (r !! COL_COLLEGE_SEQ) as [s|]; simpl.
  - destruct (parse_number s) as [x|]; simpl.
    + rewrite number_gt_one. split; [eauto|]. by intros (? & [= <-] & ?).
    + split; [done|]. by intros (? & ? & _).
  - split; [done|]. by intros (? & ? & _).
Qed.

Lemma status_mask_spec r :
  negb (isin1 ["W"; "D"] (final_row r !!! "_status_norm")) = true
  ↔ status_norm r ∉ [Some "W"; Some "D"].
Proof.
  unfold final_row, status_norm. rewrite normalize_row_status, cell_lookup. unfold cell.
  destruct (r !! COL_ENROLL_STATUS) as [s|]; simpl.
  - rewrite negb_true_iff, bool_decide_eq_false.
    rewrite !elem_of_cons, !elem_of_nil. split; intros Hn Hin; apply Hn.
    + destruct Hin as [[=]|[[=]|[]]]; auto.
    + destruct Hin as [->|[->|[]]]; auto.
  - split; [|done]. intros _. rewrite !elem_of_cons, elem_of_nil.
    by intros [|[|]].
Qed.

Lemma graduated_mask_spec r :
  graduated_mask1 (final_row r) = true ↔ grad_norm r ≠ Some "Y".
Proof.
  unfold graduated_mask1, final_row, grad_norm.
  rewrite normalize_row_other by done. rewrite cell_lookup. unfold cell.
  destruct (r !! COL_GRADUATED) as [s|]; simpl; [|done].
  rewrite negb_true_iff, bool_decide_eq_false. split; intros Hn; congruence.
Qed.

Lemma keep_eligible r : keep r = true ↔ eligible r.
Proof.
  unfold keep, global_mask1, eligible. rewrite !andb_true_iff.
  rewrite seq_mask_spec, status_mask_spec, graduated_mask_spec. tauto.
Qed.

Lemma labels_final src i :
  i ∈ labels (final_frame src)
  ↔ ∃ r, src_records src !! i = Some r ∧ keep r = true.
Proof.
  unfold labels. rewrite rows_final, list_elem_of_fmap. split.
  - intros ([j m] & -> & Hm). apply list_elem_of_fmap in Hm as ([k r] & [= -> ->] & Hr).
    apply list_elem_of_filter in Hr as [Hk Hr]. apply elem_of_zip_seq in Hr. eauto.
  - intros (r & Hr & Hk). exists (i, final_row r). split; [done|].
    apply list_elem_of_fmap. exists (i, r). split; [done|].
    apply list_elem_of_filter. split; [done|]. by apply elem_of_zip_seq.
Qed.

Lemma remove_graduated_norm_spec df w :
  "_grad_norm" ∈ columns df →
  remove_graduated_norm df w = (inr (filter_frame grad_norm_mask1 df), w).
Proof.
  intros Hg. unfold remove_graduated_norm.
  unfold mbind, M_bind, lift, mret, M_ret.
  rewrite !getitem_elem by done. unfold ne. rewrite <-list_fmap_compose.
  by rewrite <-getitem_mask_fmap.
Qed.

Lemma graduated_mask_norm r :
  graduated_mask1 (normalize_row r) = grad_norm_mask1 (normalize_row r).
Proof.
  unfold graduated_mask1, grad_norm_mask1.
  rewrite normalize_row_grad. by rewrite normalize_row_other by done.
Qed.

Lemma final_lines src :
  Forall2
    (λ i line, ∃ r, src_records src !! i = Some r ∧ keep r = true ∧
                    line = output_line (final_row r))
    (labels (final_frame src))
    (output_line <$> (rows (final_frame src)).*2).
Proof.
  unfold labels. rewrite rows_final, <-!list_fmap_compose.
  apply Forall2_fmap, Forall_Forall2_diag, Forall_forall.
  intros [i r] Hir. apply list_elem_of_filter in Hir as [Hk Hir].
  apply elem_of_zip_seq in Hir. simpl in *. eauto.
Qed.

Lemma labels_sublist src :
  labels (final_frame src) `sublist_of` seq 0 (length (src_records src)).
Proof.
  unfold labels. rewrite rows_final, <-list_fmap_compose.
  erewrite (list_fmap_ext _ fst); [|by intros _ [i r] _].
  etrans; [apply fmap_sublist, sublist_filter|].
  unfold indexed. by rewrite fst_zip by (by rewrite length_seq).
Qed.

(** What a run does to the world depends on the source alone. *)
Lemma main_effect DEBUG src :
  ∃ res lines written,
    (res = inr tt ↔ is_Some written) ∧
    ∀ w, main DEBUG src w
         = (res,
            mkWorld (stdout w ++ lines)
              (match written with
               | Some t => <["clearinghouse_filtered_output.csv" := t]> (files w)
               | None => files w
               end)).
Proof.
  destruct (decide (schema_ok src)) as [Hok|Hno].
  - destruct (main_ok DEBUG src Hok) as [lines Hm].
    exists (inr tt), lines, (Some (mkTable output_cols
      (output_line <$> (rows (final_frame src)).*2))).
    split; [|done]. split; [by eexists|done].
  - destruct (main_missing DEBUG src Hno) as (m & _ & _ & Hm).
    exists (inl (ValueError m)), ["Reading CSV: ClearingHouse_2025.csv"], None.
    split; [|done]. split; [done|]. by intros [? ?].
Qed.
End Steps.

(** * The claims *)

Section Claims.
Context `{Library}.

(** C1. When the header check passes, an input row is present in the output
    if and only if its College Sequence parses as a number strictly greater
    than 1, its uppercased and trimmed Enrollment Status is neither W nor D,
    and its uppercased and trimmed Graduated? flag is not Y.  The rows of
    the final frame are identified by their index labels, which are the
    positions in the input; the file holds one line per row of that
    frame. *)
Theorem conjunctive_filter DEBUG src w :
  schema_ok src →
  ∃ df_final w1 table w2,
    filtered DEBUG src w = (inr df_final, w1) ∧
    main DEBUG src w = (inr tt, w2) ∧
    output_of w2 = Some table ∧
    body table = output_line <$> (rows df_final).*2 ∧
    ∀ i r, src_records src !! i = Some r →
           (i ∈ labels df_final ↔ eligible r).
Proof.
  intros Hok.
  destruct (filtered_ok DEBUG src Hok) as [l1 Hf].
  destruct (main_ok DEBUG src Hok) as [l2 Hm].
  eexists _, _, _, _. split; [apply Hf|]. split; [apply Hm|].
  split; [apply lookup_insert_eq|]. split; [done|].
  intros i r Hr. rewrite labels_final, <-keep_eligible. split.
  - intros (r' & Hr' & Hk). congruence.
  - eauto.
Qed.

(** C2. If a required column is absent from the header, the run raises the
    missing-columns error whatever the records are, having printed nothing
    but the first line and written no file; when all eleven columns are
    present the check passes and the run completes. *)
Theorem schema_gate DEBUG src w :
  (¬ schema_ok src →
     ∃ missing,
       missing ≠ [] ∧
       (∀ c, c ∈ missing ↔ c ∈ required_cols ∧ c ∉ src_header src) ∧
       ∀ records,
         let run := main DEBUG (mkCsvSource (src_header src) records) w in
         run.1 = inl (ValueError missing) ∧
         stdout run.2 = stdout w ++ ["Reading CSV: ClearingHouse_2025.csv"] ∧
         files run.2 = files w) ∧
  (schema_ok src →
     load src w
     = (inr (read_csv src), say w ["Reading CSV: ClearingHouse_2025.csv"]) ∧
     (main DEBUG src w).1 = inr tt ∧
     is_Some (output_of (main DEBUG src w).2)).
Proof.
  split.
  - intros Hno. destruct (main_missing DEBUG src Hno) as (m & Hm & Hdef & _).
    exists m. split; [done|]. split.
    + intros c. rewrite Hdef, list_elem_of_filter. tauto.
    + intros records run. subst run.
      destruct (main_missing DEBUG (mkCsvSource (src_header src) records)
                  Hno) as (m' & _ & Hdef' & Hrun).
      simpl in Hdef'. rewrite <-Hdef in Hdef'. subst m'.
      by rewrite Hrun.
  - intros Hok. split; [by apply load_ok|].
    destruct (main_ok DEBUG src Hok) as [lines Hm]. rewrite Hm. simpl.
    split; [done|]. unfold output_of. simpl. rewrite lookup_insert_eq. by eexists.
Qed.

(** C3. The filter is stable and free of duplicates: the labels of the
    surviving rows are a subsequence of the input positions, so no position
    occurs twice and the labels are strictly increasing, and the lines of
    the file are the surviving records in that order. *)
Theorem stable_filter DEBUG src w :
  schema_ok src →
  ∃ df_final w1 table w2,
    filtered DEBUG src w = (inr df_final, w1) ∧
    main DEBUG src w = (inr tt, w2) ∧
    output_of w2 = Some table ∧
    labels df_final `sublist_of` seq 0 (length (src_records src)) ∧
    NoDup (labels df_final) ∧
    StronglySorted lt (labels df_final) ∧
    Forall2 (λ i line, ∃ r, src_records src !! i = Some r ∧
                            line = output_line (final_row r))
      (labels df_final) (body table).
Proof.
  intros Hok.
  destruct (filtered_ok DEBUG src Hok) as [l1 Hf].
  destruct (main_ok DEBUG src Hok) as [l2 Hm].
  pose proof (labels_sublist src) as Hsub.
  eexists _, _, _, _. split; [apply Hf|]. split; [apply Hm|].
  split; [apply lookup_insert_eq|]. split; [done|].
  split; [apply (sublist_NoDup _ _ (NoDup_seq _ _) Hsub)|].
  split; [apply (StronglySorted_sublist _ _ _ Hsub), StronglySorted_seq|].
  simpl. eapply Forall2_impl; [apply final_lines|].
  intros i line (r & ? & _ & ?). eauto.
Qed.

(** C4. Whatever columns the input has, the file has exactly the eleven
    output columns in the fixed order, every line has eleven cells, the
    k-th being the row's value in the k-th of these columns, and neither an
    extra input column nor a derived column appears. *)
Theorem projection_complete DEBUG src w :
  schema_ok src →
  ∃ df_final w1 table w2,
    filtered DEBUG src w = (inr df_final, w1) ∧
    main DEBUG src w = (inr tt, w2) ∧
    output_of w2 = Some table ∧
    header table
    = [ "First Name"; "Middle Initial"; "Last Name";
        "Requester Return Field"; "College Name"; "Enrollment Major 1";
        "Class Level"; "Enrollment Status"; "Enrollment End";
        "College Sequence"; "Graduated?" ] ∧
    body table = (λ r, (λ c, r !!! c) <$> header table) <$> (rows df_final).*2 ∧
    Forall (λ line, length line = 11) (body table) ∧
    ("_status_norm" ∉ header table) ∧ ("_grad_norm" ∉ header table) ∧
    ∀ c, c ∈ src_header src → c ∉ required_cols → c ∉ header table.
Proof.
  intros Hok.
  destruct (filtered_ok DEBUG src Hok) as [l1 Hf].
  destruct (main_ok DEBUG src Hok) as [l2 Hm].
  eexists _, _, _, _. split; [apply Hf|]. split; [apply Hm|].
  split; [apply lookup_insert_eq|]. split; [done|]. split; [done|].
  split; [|split; [|split]].
  - simpl. apply Forall_fmap, Forall_forall. by intros r _.
  - simpl. apply (bool_decide_unpack _). by vm_compute.
  - simpl. apply (bool_decide_unpack _). by vm_compute.
  - intros c _ Hc. done.
Qed.

(** C5. A College Sequence that does not parse becomes NaN, never a
    number; NaN compares false against the threshold 1; and the row is
    absent from the output. *)
Theorem unparsable_sequence_excluded DEBUG src w i r :
  schema_ok src →
  src_records src !! i = Some r →
  seq_number r = None →
  to_numeric1 (cell r COL_COLLEGE_SEQ) = NaN ∧
  (∀ x, to_numeric1 (cell r COL_COLLEGE_SEQ) ≠ Num x) ∧
  gt1 1 (to_numeric1 (cell r COL_COLLEGE_SEQ)) = inr false ∧
  final_row r !!! COL_COLLEGE_SEQ = NaN ∧
  ∃ df_final w1,
    filtered DEBUG src w = (inr df_final, w1) ∧ i ∉ labels df_final.
Proof.
  intros Hok Hr Hseq.
  assert (to_numeric1 (cell r COL_COLLEGE_SEQ) = NaN) as Hnan.
  { unfold seq_number in Hseq. unfold cell.
    destruct (r !! COL_COLLEGE_SEQ) as [s|]; simpl in *; [|done].
    by rewrite Hseq. }
  rewrite Hnan. split; [done|]. split; [done|]. split; [done|].
  split; [unfold final_row; by rewrite normalize_row_seq, cell_lookup|].
  destruct (filtered_ok DEBUG src Hok) as [l1 Hf].
  eexists _, _. split; [apply Hf|].
  rewrite labels_final. intros (r' & Hr' & Hk).
  assert (r' = r) as -> by congruence.
  apply keep_eligible in Hk as ((x & Hx & _) & _). congruence.
Qed.


(** C8. The verbosity toggle does not affect the result: with DEBUG true
    or false the run ends the same way and leaves the same files. *)
Theorem debug_noninterference src w :
  (main true src w).1 = (main false src w).1 ∧
  files (main true src w).2 = files (main false src w).2 ∧
  output_of (main true src w).2 = output_of (main false src w).2.
Proof.
  destruct (decide (schema_ok src)) as [Hok|Hno].
  - destruct (main_ok true src Hok) as [l1 H1].
    destruct (main_ok false src Hok) as [l2 H2].
    by rewrite H1, H2.
  - destruct (main_missing true src Hno) as (m1 & _ & -> & H1).
    destruct (main_missing false src Hno) as (m2 & _ & -> & H2).
    by rewrite H1, H2.
Qed.

(** C9. A missing Enrollment Status never matches W or D, and a missing
    Graduated? cell is never taken for Y; a row with both cells missing is
    in the output exactly when its College Sequence parses as a number
    strictly greater than 1.  With one of the two cells missing, the other
    condition and the College Sequence decide. *)
Theorem missing_cells_kept DEBUG src w i r :
  schema_ok src →
  src_records src !! i = Some r →
  (r !! COL_ENROLL_STATUS = None →
     final_row r !!! "_status_norm" = NaN ∧
     negb (isin1 ["W"; "D"] (final_row r !!! "_status_norm")) = true) ∧
  (r !! COL_GRADUATED = None →
     graduated_mask1 (final_row r) = true) ∧
  ∃ df_final w1,
    filtered DEBUG src w = (inr df_final, w1) ∧
    (r !! COL_ENROLL_STATUS = None → r !! COL_GRADUATED = None →
       (i ∈ labels df_final ↔ ∃ x, seq_number r = Some x ∧ gt_one x)) ∧
    (r !! COL_ENROLL_STATUS = None →
       (i ∈ labels df_final
        ↔ (∃ x, seq_number r = Some x ∧ gt_one x) ∧ grad_norm r ≠ Some "Y")) ∧
    (r !! COL_GRADUATED = None →
       (i ∈ labels df_final
        ↔ (∃ x, seq_number r = Some x ∧ gt_one x) ∧
          (status_norm r ∉ [Some "W"; Some "D"]))).
Proof.
  intros Hok Hr. split; [|split].
  - intros Hs. unfold final_row.
    rewrite normalize_row_status, cell_lookup. unfold cell. by rewrite Hs.
  - intros Hg. apply graduated_mask_spec. unfold grad_norm. by rewrite Hg.
  - destruct (filtered_ok DEBUG src Hok) as [l1 Hf].
    assert (i ∈ labels (final_frame src) ↔ eligible r) as Hin.
    { rewrite labels_final, <-keep_eligible. split; [|by eauto].
      intros (r' & Hr' & Hk). congruence. }
    assert (r !! COL_ENROLL_STATUS = None →
            status_norm r ∉ [Some "W"; Some "D"]) as Hstatus.
    { intros Hs. unfold status_norm. rewrite Hs. simpl.
      rewrite !elem_of_cons, elem_of_nil. by intros [|[|]]. }
    assert (r !! COL_GRADUATED = None → grad_norm r ≠ Some "Y") as Hgrad.
    { intros Hg. unfold grad_norm. by rewrite Hg. }
    eexists _, _. split; [apply Hf|]. rewrite Hin. unfold eligible.
    split; [|split]; intros; tauto.
Qed.

(** C10. On the frame the second stage runs on, normalising Graduated?
    again and reading the derived column _grad_norm give the same mask,
    entry by entry, hence the same frame; the two checks agree on every
    normalised row. *)
Theorem graduated_check_equivalent src :
  schema_ok src →
  (∀ r, graduated_mask1 (normalize_row r) = grad_norm_mask1 (normalize_row r)) ∧
  ∃ df df_final grad grad_norm,
    (∀ w, normalize (read_csv src) w = (inr df, w)) ∧
    (∀ w, global_filters df w = (inr df_final, w)) ∧
    getitem df_final COL_GRADUATED = inr grad ∧
    getitem df_final "_grad_norm" = inr grad_norm ∧
    ne (str_strip (str_upper grad)) "Y" = ne grad_norm "Y" ∧
    ∀ w, remove_graduated df_final w = remove_graduated_norm df_final w.
Proof.
  intros Hok. split; [apply graduated_mask_norm|].
  assert (∀ c, c ∈ required_cols → c ∈ columns (read_csv src)) as Hcols
    by (intros c; apply schema_ok_elem, Hok).
  set (df := normalize_frame (read_csv src)).
  set (df_final := filter_frame global_mask1 df).
  assert (COL_GRADUATED ∈ columns df_final) as Hg.
  { simpl. rewrite !elem_of_add_column. do 3 right. apply Hcols. set_solver. }
  assert ("_grad_norm" ∈ columns df_final) as Hgn.
  { simpl. rewrite !elem_of_add_column. auto. }
  assert (ne (str_strip (str_upper ((λ r, r.2 !!! COL_GRADUATED) <$> rows df_final))) "Y"
          = ne ((λ r, r.2 !!! "_grad_norm") <$> rows df_final) "Y") as Hmask.
  { unfold ne, str_strip, str_upper. rewrite <-!list_fmap_compose.
    apply list_fmap_ext. intros k [i r] Hk. simpl.
    apply list_elem_of_lookup_2, list_elem_of_filter in Hk as [_ Hk].
    apply list_elem_of_fmap in Hk as ([j r0] & [= -> ->] & _).
    apply graduated_mask_norm. }
  exists df, df_final. eexists _, _.
  split; [intros w; apply normalize_spec; apply Hcols; set_solver|].
  split.
  { intros w. apply global_filters_spec; simpl.
    - rewrite !elem_of_add_column. auto.
    - rewrite !elem_of_add_column. auto.
    - apply Forall_fmap, Forall_forall. intros [i r] _ t. simpl.
      rewrite normalize_row_seq. apply to_numeric1_not_str. }
  split; [by apply getitem_elem|]. split; [by apply getitem_elem|].
  split; [done|].
  intros w. unfold remove_graduated, remove_graduated_norm.
  unfold mbind, M_bind, lift, mret, M_ret.
  rewrite !getitem_elem by done. by rewrite Hmask.
Qed.
End Claims.

(** * The script on concrete tables *)

(** The five scenarios of the specification: only the first record is
    written, with the extra column dropped. *)
Example scenarios_run :
  let run := run_main true scenarios empty_world in
  run.1 = inr tt ∧
  stdout run.2
  = [ "Reading CSV: ClearingHouse_2025.csv"; "Total rows: 5";
      "Rows after seq>1 & status filters: 2";
      "Rows after removing Graduated=Y: 1";
      "✔ Output written → clearinghouse_filtered_output.csv" ] ∧
  body <$> output_of run.2
  = Some [ [ Str "A"; NaN; NaN; NaN; NaN; NaN; NaN; Str "E"; NaN;
             Num (Fin (2 # 1)); Str "N" ] ].
Proof. by vm_compute. Qed.

Example missing_cells_run :
  body <$> output_of (run_main false missing_cells empty_world).2
  = Some [ [ Str "A"; NaN; NaN; NaN; NaN; NaN; NaN; NaN; NaN;
             Num (Fin (2 # 1)); NaN ];
           [ Str "D"; NaN; NaN; NaN; NaN; NaN; NaN; NaN; NaN;
             Num (Fin (25 # 10)); NaN ] ].
Proof. by vm_compute. Qed.

Example no_graduated_column_run :
  run_main true no_graduated_column empty_world
  = (inl (ValueError [COL_GRADUATED]),
     mkWorld ["Reading CSV: ClearingHouse_2025.csv"] ∅).
Proof. by vm_compute. Qed.

Lemma schema_ok_scenarios : schema_ok scenarios.
Proof. apply (bool_decide_unpack _). by vm_compute. Defined.

Lemma schema_ok_missing_cells : schema_ok missing_cells.
Proof. apply (bool_decide_unpack _). by vm_compute. Defined.

Lemma schema_not_ok_no_graduated : ¬ schema_ok no_graduated_column.
Proof. apply (bool_decide_unpack _). by vm_compute. Defined.

Lemma conjunctive_filter_witness :
  schema_ok scenarios ∧
  ∃ df_final w1 table w2,
    @filtered ascii_library true scenarios empty_world = (inr df_final, w1) ∧
    @main ascii_library true scenarios empty_world = (inr tt, w2) ∧
    output_of w2 = Some table ∧
    body table = output_line <$> (rows df_final).*2 ∧
    ∀ i r, src_records scenarios !! i = Some r →
           (i ∈ labels df_final ↔ @eligible ascii_library r).
Proof.
  split; [exact schema_ok_scenarios|].
  exact (@conjunctive_filter ascii_library true scenarios empty_world
           schema_ok_scenarios).
Defined.

Lemma schema_gate_witness :
  (∃ missing,
     missing ≠ [] ∧
     (∀ c, c ∈ missing
           ↔ c ∈ required_cols ∧ c ∉ src_header no_graduated_column) ∧
     ∀ records,
       let run := @main ascii_library true
                    (mkCsvSource (src_header no_graduated_column) records)
                    empty_world in
       run.1 = inl (ValueError missing) ∧
       stdout run.2
       = stdout empty_world ++ ["Reading CSV: ClearingHouse_2025.csv"] ∧
       files run.2 = files empty_world) ∧
  (@load scenarios empty_world
   = (inr (read_csv scenarios),
      say empty_world ["Reading CSV: ClearingHouse_2025.csv"]) ∧
   (@main ascii_library true scenarios empty_world).1 = inr tt ∧
   is_Some (output_of (@main ascii_library true scenarios empty_world).2)).
Proof.
  split.
  - exact (proj1 (@schema_gate ascii_library true no_graduated_column
                    empty_world) schema_not_ok_no_graduated).
  - exact (proj2 (@schema_gate ascii_library true scenarios empty_world)
             schema_ok_scenarios).
Defined.

Lemma stable_filter_witness :
  schema_ok missing_cells ∧
  ∃ df_final w1 table w2,
    @filtered ascii_library true missing_cells empty_world = (inr df_final, w1) ∧
    @main ascii_library true missing_cells empty_world = (inr tt, w2) ∧
    output_of w2 = Some table ∧
    labels df_final `sublist_of` seq 0 (length (src_records missing_cells)) ∧
    NoDup (labels df_final) ∧
    StronglySorted lt (labels df_final) ∧
    Forall2 (λ i line, ∃ r, src_records missing_cells !! i = Some r ∧
                            line = output_line (@final_row ascii_library r))
      (labels df_final) (body table).
Proof.
  split; [exact schema_ok_missing_cells|].
  exact (@stable_filter ascii_library true missing_cells empty_world
           schema_ok_missing_cells).
Defined.

Lemma projection_complete_witness :
  schema_ok scenarios ∧
  ∃ df_final w1 table w2,
    @filtered ascii_library false scenarios empty_world = (inr df_final, w1) ∧
    @main ascii_library false scenarios empty_world = (inr tt, w2) ∧
    output_of w2 = Some table ∧
    header table
    = [ "First Name"; "Middle Initial"; "Last Name";
        "Requester Return Field"; "College Name"; "Enrollment Major 1";
        "Class Level"; "Enrollment Status"; "Enrollment End";
        "College Sequence"; "Graduated?" ] ∧
    body table = (λ r, (λ c, r !!! c) <$> header table) <$> (rows df_final).*2 ∧
    Forall (λ line, length line = 11) (body table) ∧
    ("_status_norm" ∉ header table) ∧ ("_grad_norm" ∉ header table) ∧
    ∀ c, c ∈ src_header scenarios → c ∉ required_cols → c ∉ header table.
Proof.
  split; [exact schema_ok_scenarios|].
  exact (@projection_complete ascii_library false scenarios empty_world
           schema_ok_scenarios).
Defined.

Lemma unparsable_sequence_excluded_witness :
  let r := record "E" "abc" "E" "N" in
  @seq_number ascii_library r = None ∧
  @to_numeric1 ascii_library (cell r COL_COLLEGE_SEQ) = NaN ∧
  (∀ x, @to_numeric1 ascii_library (cell r COL_COLLEGE_SEQ) ≠ Num x) ∧
  gt1 1 (@to_numeric1 ascii_library (cell r COL_COLLEGE_SEQ)) = inr false ∧
  @final_row ascii_library r !!! COL_COLLEGE_SEQ = NaN ∧
  ∃ df_final w1,
    @filtered ascii_library true scenarios empty_world = (inr df_final, w1) ∧
    4 ∉ labels df_final.
Proof.
  intros r.
  assert (@seq_number ascii_library r = None) as Hseq by (by vm_compute).
  split; [exact Hseq|].
  exact (@unparsable_sequence_excluded ascii_library true scenarios
           empty_world 4 r schema_ok_scenarios eq_refl Hseq).
Defined.



(** The record of [na_name_file] is kept, and its first name, the text NA,
    is written as a missing cell: the line is not the record unmodified. *)
Example na_name_file_run :
  body <$> output_of (run_main true (parse_file na_name_file) empty_world).2
  = Some [ [ NaN; Str "Q"; Str "Doe"; Str "17"; Str "State College";
             Str "History"; Str "F"; Str "E"; Str "20250515";
             Num (Fin (2 # 1)); Str "N" ] ].
Proof. by vm_compute. Qed.


Lemma missing_cells_kept_witness :
  ∃ df_final w1,
    @filtered ascii_library true missing_cells empty_world = (inr df_final, w1) ∧
    0 ∈ labels df_final.
Proof.
  pose (r := ({[ COL_FIRST_NAME := "A"; COL_COLLEGE_SEQ := "2" ]}
              : gmap string string)).
  destruct (@missing_cells_kept ascii_library true missing_cells empty_world
              0 r schema_ok_missing_cells eq_refl)
    as (_ & _ & df_final & w1 & Hrun & Hin & _).
  exists df_final, w1. split; [exact Hrun|].
  apply Hin; [by vm_compute..|].
  exists (Fin (2 # 1)). split; by vm_compute.
Defined.

Lemma graduated_check_equivalent_witness :
  schema_ok scenarios ∧
  (∀ r, @graduated_mask1 ascii_library (@normalize_row ascii_library r)
        = grad_norm_mask1 (@normalize_row ascii_library r)) ∧
  ∃ df df_final grad grad_norm,
    (∀ w, @normalize ascii_library (read_csv scenarios) w = (inr df, w)) ∧
    (∀ w, global_filters df w = (inr df_final, w)) ∧
    getitem df_final COL_GRADUATED = inr grad ∧
    getitem df_final "_grad_norm" = inr grad_norm ∧
    ne (@str_strip ascii_library (@str_upper ascii_library grad)) "Y"
    = ne grad_norm "Y" ∧
    ∀ w, @remove_graduated ascii_library df_final w
         = remove_graduated_norm df_final w.
Proof.
  split; [exact schema_ok_scenarios|].
  exact (@graduated_check_equivalent ascii_library scenarios
           schema_ok_scenarios).
Defined.

(** * Further properties of the run *)

Lemma filter_snd_zip {A B} (P : B → Prop) `{!∀ y, Decision (P y)}
    (l : list A) (k : list B) :
  length l = length k →
  (filter (λ p, P p.2) (zip l k)).*2 = filter P k.
Proof.
  revert k. induction l as [|x l IH]; intros [|y k] Hlen; try done.
  simpl in Hlen. injection Hlen as Hlen. csimpl.
  rewrite !filter_cons. simpl.
  destruct (decide (P y)); csimpl; by rewrite IH.
Qed.

Lemma filter_all {A} (P : A → Prop) `{!∀ x, Decision (P x)} (l : list A) :
  Forall P l → filter P l = l.
Proof.
  induction 1 as [|x l Hx _ IH]; [done|].
  by rewrite filter_cons_True, IH.
Qed.

Section RunFacts.
Context `{Library}.

Lemma rows_global src :
  rows (filter_frame global_mask1 (normalize_frame (read_csv src)))
  = prod_map id final_row
      <$> filter (λ p, global_mask1 (final_row p.2) = true) (indexed src).
Proof.
  unfold filter_frame, normalize_frame, read_csv, indexed.
  cbn [rows columns]. rewrite zip_fmap_snd.
  rewrite <-list_fmap_compose, filter_fmap_comm.
  apply list_fmap_ext. by intros _ [i r] _.
Qed.

Lemma len_read_csv src : len (read_csv src) = length (src_records src).
Proof.
  unfold len, read_csv. cbn [rows].
  by rewrite length_zip, length_seq, length_fmap, Nat.min_id.
Qed.

Lemma indexed_snd_filter (P : gmap string string → Prop)
    `{!∀ r, Decision (P r)} src :
  (filter (λ p, P p.2) (indexed src)).*2 = filter P (src_records src).
Proof. unfold indexed. apply filter_snd_zip. by rewrite length_seq. Qed.

Lemma len_global src :
  len (filter_frame global_mask1 (normalize_frame (read_csv src)))
  = length (passed_global src).
Proof.
  unfold len, passed_global. rewrite rows_global, length_fmap.
  rewrite <-(indexed_snd_filter (λ r, global_mask1 (final_row r) = true)).
  by rewrite length_fmap.
Qed.

Lemma final_rows_kept src :
  (rows (final_frame src)).*2 = final_row <$> kept src.
Proof.
  unfold kept. rewrite rows_final, <-list_fmap_compose.
  rewrite <-(indexed_snd_filter (λ r, keep r = true)), <-list_fmap_compose.
  apply list_fmap_ext. by intros _ [i r] _.
Qed.

Lemma len_final src : len (final_frame src) = length (kept src).
Proof.
  unfold len. rewrite <-(length_fmap snd), final_rows_kept.
  by rewrite length_fmap.
Qed.

Lemma filtered_run DEBUG src w :
  schema_ok src →
  filtered DEBUG src w
  = (inr (final_frame src),
     say w (["Reading CSV: ClearingHouse_2025.csv"] ++
            (if DEBUG
             then ["Total rows: " +:+ pretty (length (src_records src))]
             else []) ++
            (if DEBUG
             then ["Rows after seq>1 & status filters: " +:+
                   pretty (length (passed_global src))]
             else []) ++
            (if DEBUG
             then ["Rows after removing Graduated=Y: " +:+
                   pretty (length (kept src))]
             else []))).
Proof.
  intros Hok.
  assert (∀ c, c ∈ required_cols → c ∈ columns (read_csv src)) as Hcols
    by (intros c; apply schema_ok_elem, Hok).
  unfold filtered.
  erewrite bind_inr by (by apply load_ok).
  erewrite bind_inr by apply when_print.
  erewrite bind_inr by (apply normalize_spec; apply Hcols; set_solver).
  erewrite bind_inr.
  2:{ apply global_filters_spec; simpl.
      - rewrite !elem_of_add_column. auto.
      - rewrite !elem_of_add_column. auto.
      - apply Forall_fmap, Forall_forall. intros [i r] _ t. simpl.
        rewrite normalize_row_seq. apply to_numeric1_not_str. }
  erewrite bind_inr by apply when_print.
  erewrite bind_inr.
  2:{ apply remove_graduated_spec. simpl. rewrite !elem_of_add_column.
      do 3 right. apply Hcols. set_solver. }
  erewrite bind_inr by apply when_print.
  unfold mret, M_ret. rewrite !say_say.
  change (filter_frame graduated_mask1
            (filter_frame global_mask1 (normalize_frame (read_csv src))))
    with (final_frame src).
  by rewrite len_read_csv, len_global, len_final.
Qed.

Lemma main_run DEBUG src w :
  schema_ok src →
  main DEBUG src w
  = (inr tt,
     mkWorld
       (stdout w ++ stage_lines DEBUG (length (src_records src))
                      (length (passed_global src)) (length (kept src)))
       (<["clearinghouse_filtered_output.csv" :=
            mkTable output_cols (output_line <$> (final_row <$> kept src))]>
          (files w))).
Proof.
  intros Hok. unfold main.
  erewrite bind_inr by (by apply filtered_run).
  erewrite bind_inr.
  2:{ unfold lift. rewrite getitem_cols_ok; [done|].
      apply Forall_forall. intros c Hc. simpl. rewrite !elem_of_add_column.
      do 3 right. by apply schema_ok_elem. }
  unfold to_csv, write_file, print, mbind, M_bind.
  cbn [columns rows stdout files say fst snd]. rewrite project_lines.
  rewrite final_rows_kept. unfold stage_lines.
  by rewrite <-!app_assoc.
Qed.
End RunFacts.

Section Extras.
Context `{Library}.

Lemma kept_of_passed src :
  kept src
  = filter (λ r, graduated_mask1 (final_row r) = true) (passed_global src).
Proof.
  unfold kept, passed_global. rewrite list_filter_filter.
  apply list_filter_iff. intros r. unfold keep.
  rewrite andb_true_iff. tauto.
Qed.

(** X1. On any table the reader has parsed, the steps between the read and
    the write raise nothing but the missing-columns error.  When every
    required column is in the header they end with the final frame, and the
    projection on the output columns succeeds; otherwise they raise the
    error with a non-empty list.  No column lookup raises KeyError and the
    comparison with 1 never raises TypeError. *)
Theorem steps_raise_only_missing_columns DEBUG src w :
  (schema_ok src →
     ∃ df_final w1 out,
       filtered DEBUG src w = (inr df_final, w1) ∧
       getitem_cols df_final output_cols = inr out ∧
       columns out = output_cols) ∧
  (¬ schema_ok src →
     ∃ missing,
       missing ≠ [] ∧
       (filtered DEBUG src w).1 = inl (ValueError missing)) ∧
  (∀ c, (filtered DEBUG src w).1 ≠ inl (KeyError c)) ∧
  (filtered DEBUG src w).1 ≠ inl TypeError.
Proof.
  destruct (decide (schema_ok src)) as [Hok|Hno].
  - rewrite (filtered_run DEBUG src w Hok). simpl.
    split; [|done]. intros _. eexists _, _, _. split; [done|].
    rewrite getitem_cols_ok; [done|].
    apply Forall_forall. intros c Hc. simpl. rewrite !elem_of_add_column.
    do 3 right. by apply schema_ok_elem.
  - destruct (load_missing src w Hno) as (m & Hm & _ & Hrun).
    unfold filtered. erewrite bind_inl by apply Hrun. simpl.
    split; [done|]. split; [|done]. intros _. by exists m.
Qed.

(** X2. When a required column is absent, the error lists exactly the
    absent required columns, in the order of the required list and each
    once; the list is not empty. *)
Theorem missing_columns_in_order DEBUG src w :
  ¬ schema_ok src →
  ∃ missing,
    (main DEBUG src w).1 = inl (ValueError missing) ∧
    missing ≠ [] ∧
    (∀ c, c ∈ missing ↔ c ∈ required_cols ∧ c ∉ src_header src) ∧
    missing `sublist_of` required_cols ∧
    NoDup missing.
Proof.
  intros Hno. destruct (main_missing DEBUG src Hno) as (m & Hm & Hdef & Hrun).
  exists m. rewrite Hrun. split; [done|]. split; [done|]. subst m.
  split; [|split].
  - intros c. rewrite list_elem_of_filter. tauto.
  - apply sublist_filter.
  - apply (sublist_NoDup _ required_cols); [|apply sublist_filter].
    apply (bool_decide_unpack _). by vm_compute.
Qed.

(** X3. A run that passes the header check prints, with DEBUG on, the
    number of records, the number that pass the global filters and the
    number that also pass the graduated check, between the first and the
    last line; with DEBUG off it prints those two lines only.  The counts
    do not increase from stage to stage, and the last one is the number of
    lines written. *)
Theorem stage_counts src w :
  schema_ok src →
  stdout (main true src w).2
  = stdout w ++
    [ "Reading CSV: ClearingHouse_2025.csv";
      "Total rows: " +:+ pretty (length (src_records src));
      "Rows after seq>1 & status filters: " +:+
        pretty (length (passed_global src));
      "Rows after removing Graduated=Y: " +:+ pretty (length (kept src));
      "✔ Output written → clearinghouse_filtered_output.csv" ] ∧
  stdout (main false src w).2
  = stdout w ++
    [ "Reading CSV: ClearingHouse_2025.csv";
      "✔ Output written → clearinghouse_filtered_output.csv" ] ∧
  length (kept src) ≤ length (passed_global src) ∧
  length (passed_global src) ≤ length (src_records src) ∧
  ∃ table,
    output_of (main true src w).2 = Some table ∧
    length (body table) = length (kept src).
Proof.
  intros Hok. rewrite !main_run by done. simpl.
  split; [done|]. split; [done|].
  split; [rewrite kept_of_passed; apply length_filter|].
  split; [apply length_filter|].
  eexists. split; [apply lookup_insert_eq|]. simpl.
  by rewrite !length_fmap.
Qed.

(** X4. A run touches no file other than the output file; in particular
    the input file is never written. *)
Theorem other_files_untouched DEBUG src w path :
  path ≠ "clearinghouse_filtered_output.csv" →
  files (main DEBUG src w).2 !! path = files w !! path.
Proof.
  intros Hpath.
  destruct (main_effect DEBUG src) as (res & lines & written & _ & Hm).
  rewrite Hm. simpl. destruct written as [t|]; [|done].
  by rewrite lookup_insert_ne.
Qed.

Lemma filter_frame_comm (f g : gmap string value → bool) df :
  filter_frame f (filter_frame g df) = filter_frame g (filter_frame f df).
Proof.
  unfold filter_frame. cbn [rows columns]. f_equal.
  rewrite !list_filter_filter. apply list_filter_iff. intros r. tauto.
Qed.

Lemma filter_frame_all (f : gmap string value → bool) df :
  Forall (λ r, f r.2 = true) (rows df) → filter_frame f df = df.
Proof.
  intros Hall. destruct df as [cols rs]. unfold filter_frame. cbn [rows columns] in *.
  by rewrite filter_all.
Qed.

Lemma normalized_numeric df :
  Forall (λ r, ∀ t, r.2 !!! COL_COLLEGE_SEQ ≠ Str t)
    (rows (normalize_frame df)).
Proof.
  apply Forall_fmap, Forall_forall. intros [i r] _ t. simpl.
  rewrite normalize_row_seq. apply to_numeric1_not_str.
Qed.

Lemma filtered_numeric (f : gmap string value → bool) df :
  Forall (λ r, ∀ t, r.2 !!! COL_COLLEGE_SEQ ≠ Str t) (rows df) →
  Forall (λ r, ∀ t, r.2 !!! COL_COLLEGE_SEQ ≠ Str t) (rows (filter_frame f df)).
Proof.
  rewrite !Forall_forall. intros Hall r Hr.
  apply list_elem_of_filter in Hr as [_ Hr]. by apply Hall.
Qed.

Lemma normalized_columns df c :
  c ∈ columns df → c ∈ columns (normalize_frame df).
Proof. intros Hc. simpl. rewrite !elem_of_add_column. auto. Qed.

(** X5. The two filter stages commute: on the normalised frame, dropping
    the graduated rows first and applying the global filters afterwards
    gives the frame the script computes in its own order. *)
Theorem filters_commute src w :
  schema_ok src →
  ∃ df df_final,
    normalize (read_csv src) w = (inr df, w) ∧
    (global_filters df ≫= remove_graduated) w = (inr df_final, w) ∧
    (remove_graduated df ≫= global_filters) w = (inr df_final, w).
Proof.
  intros Hok.
  assert (∀ c, c ∈ required_cols → c ∈ columns (read_csv src)) as Hcols
    by (intros c; apply schema_ok_elem, Hok).
  assert (COL_GRADUATED ∈ columns (normalize_frame (read_csv src))) as Hg
    by (apply normalized_columns, Hcols; set_solver).
  assert (COL_COLLEGE_SEQ ∈ columns (normalize_frame (read_csv src))) as Hs
    by (apply normalized_columns, Hcols; set_solver).
  assert ("_status_norm" ∈ columns (normalize_frame (read_csv src))) as Hst
    by (simpl; rewrite !elem_of_add_column; auto).
  exists (normalize_frame (read_csv src)), (final_frame src).
  split; [apply normalize_spec; apply Hcols; set_solver|]. split.
  - erewrite bind_inr
      by (apply global_filters_spec; [done..|apply normalized_numeric]).
    by apply remove_graduated_spec.
  - erewrite bind_inr by (by apply remove_graduated_spec).
    rewrite global_filters_spec;
      [|done..|apply filtered_numeric, normalized_numeric].
    unfold final_frame. by rewrite filter_frame_comm.
Qed.

(** X6. The filters are idempotent: applied to the final frame again, each
    stage returns it unchanged. *)
Theorem filters_idempotent DEBUG src w :
  schema_ok src →
  ∃ df_final w1,
    filtered DEBUG src w = (inr df_final, w1) ∧
    ∀ w', global_filters df_final w' = (inr df_final, w') ∧
          remove_graduated df_final w' = (inr df_final, w').
Proof.
  intros Hok.
  assert (∀ c, c ∈ required_cols → c ∈ columns (read_csv src)) as Hcols
    by (intros c; apply schema_ok_elem, Hok).
  eexists _, _. split; [by apply filtered_run|]. intros w'. split.
  - rewrite global_filters_spec.
    + rewrite filter_frame_all; [done|].
      apply Forall_forall. intros r Hr.
      apply list_elem_of_filter in Hr as [_ Hr].
      by apply list_elem_of_filter in Hr as [? _].
    + apply normalized_columns, Hcols. set_solver.
    + simpl. rewrite !elem_of_add_column. auto.
    + apply filtered_numeric, filtered_numeric, normalized_numeric.
  - rewrite remove_graduated_spec.
    + rewrite filter_frame_all; [done|].
      apply Forall_forall. intros r Hr.
      by apply list_elem_of_filter in Hr as [? _].
    + apply normalized_columns, Hcols. set_solver.
Qed.

(** X7. Every line written satisfies the rule on its own cells: the
    College Sequence cell is a number strictly greater than 1, the
    Enrollment Status cell, uppercased and trimmed, is neither W nor D, and
    the Graduated? cell, uppercased and trimmed, is not Y. *)
Theorem written_lines_eligible DEBUG src w :
  schema_ok src →
  ∃ table,
    output_of (main DEBUG src w).2 = Some table ∧
    Forall
      (λ line,
         (∀ k, output_cols !! k = Some COL_COLLEGE_SEQ →
               ∃ x, line !! k = Some (Num x) ∧ gt_one x) ∧
         (∀ k, output_cols !! k = Some COL_ENROLL_STATUS →
               ∃ v, line !! k = Some v ∧
                    isin1 ["W"; "D"] (str_strip1 (str_upper1 v)) = false) ∧
         (∀ k, output_cols !! k = Some COL_GRADUATED →
               ∃ v, line !! k = Some v ∧
                    ne1 "Y" (str_strip1 (str_upper1 v)) = true))
      (body table).
Proof.
  intros Hok. rewrite main_run by done. eexists.
  split; [apply lookup_insert_eq|]. simpl.
  rewrite <-list_fmap_compose. apply Forall_fmap, Forall_forall.
  intros r Hr. apply list_elem_of_filter in Hr as [Hk _].
  unfold keep, global_mask1 in Hk. rewrite !andb_true_iff in Hk.
  destruct Hk as [[Hseq Hst] Hg]. simpl. unfold output_line.
  split; [|split]; intros k Hk; rewrite list_lookup_fmap, Hk; simpl.
  - destruct (final_row r !!! COL_COLLEGE_SEQ) as [|t|x]; try done.
    exists x. split; [done|]. by apply number_gt_one.
  - eexists. split; [done|]. apply negb_true_iff in Hst.
    unfold final_row in *. rewrite normalize_row_status in Hst.
    by rewrite normalize_row_other by done.
  - eexists. split; [done|]. exact Hg.
Qed.

Lemma required_not_derived c :
  c ∈ required_cols → c ≠ "_status_norm" ∧ c ≠ "_grad_norm".
Proof.
  intros Hc. split; intros ->; revert Hc;
    apply (bool_decide_unpack _); by vm_compute.
Qed.

Lemma final_row_required r c :
  c ∈ required_cols →
  final_row r !!! c
  = if decide (c = COL_COLLEGE_SEQ) then to_numeric1 (cell r c) else cell r c.
Proof.
  intros Hc. destruct (required_not_derived c Hc) as [Hs Hg].
  unfold final_row. destruct (decide (c = COL_COLLEGE_SEQ)) as [->|Hne].
  - by rewrite normalize_row_seq, cell_lookup.
  - by rewrite normalize_row_other, cell_lookup.
Qed.

Lemma agree_cell r1 r2 c :
  agree_on_required r1 r2 → c ∈ required_cols → cell r1 c = cell r2 c.
Proof. intros Hag Hc. unfold cell. by rewrite (Hag c Hc). Qed.

Lemma agree_final_row r1 r2 c :
  agree_on_required r1 r2 → c ∈ required_cols →
  final_row r1 !!! c = final_row r2 !!! c.
Proof.
  intros Hag Hc. rewrite !final_row_required by done.
  by rewrite (agree_cell r1 r2 c).
Qed.

Lemma agree_status_norm r1 r2 :
  agree_on_required r1 r2 →
  final_row r1 !!! "_status_norm" = final_row r2 !!! "_status_norm".
Proof.
  intros Hag.
  assert (COL_ENROLL_STATUS ∈ required_cols) as Hc
    by (apply (bool_decide_unpack _); by vm_compute).
  unfold final_row. rewrite !normalize_row_status, !cell_lookup.
  by rewrite (agree_cell r1 r2 COL_ENROLL_STATUS Hag Hc).
Qed.

Lemma agree_global_mask r1 r2 :
  agree_on_required r1 r2 →
  global_mask1 (final_row r1) = global_mask1 (final_row r2).
Proof.
  intros Hag.
  assert (COL_COLLEGE_SEQ ∈ required_cols) as Hc
    by (apply (bool_decide_unpack _); by vm_compute).
  unfold global_mask1.
  by rewrite (agree_final_row r1 r2 COL_COLLEGE_SEQ Hag Hc),
    (agree_status_norm r1 r2 Hag).
Qed.

Lemma agree_keep r1 r2 :
  agree_on_required r1 r2 → keep r1 = keep r2.
Proof.
  intros Hag.
  assert (COL_GRADUATED ∈ required_cols) as Hc
    by (apply (bool_decide_unpack _); by vm_compute).
  unfold keep, graduated_mask1.
  by rewrite (agree_global_mask r1 r2 Hag),
    (agree_final_row r1 r2 COL_GRADUATED Hag Hc).
Qed.

Lemma agree_output_line r1 r2 :
  agree_on_required r1 r2 →
  output_line (final_row r1) = output_line (final_row r2).
Proof.
  intros Hag. unfold output_line. apply list_fmap_ext. intros k c Hc.
  apply agree_final_row; [done|]. by eapply list_elem_of_lookup_2.
Qed.
End Extras.

Lemma fmap_filter_related {A B C} (R : A → B → Prop)
    (P : A → Prop) (Q : B → Prop)
    `{!∀ x, Decision (P x)} `{!∀ y, Decision (Q y)}
    (f : A → C) (g : B → C) (l : list A) (k : list B) :
  Forall2 R l k →
  (∀ x y, R x y → (P x ↔ Q y) ∧ f x = g y) →
  f <$> filter P l = g <$> filter Q k.
Proof.
  intros Hlk HR. induction Hlk as [|x y l k Hxy _ IH]; [done|].
  destruct (HR x y Hxy) as [HPQ Hfg]. rewrite !filter_cons.
  destruct (decide (P x)) as [HP|HP]; destruct (decide (Q y)) as [HQ|HQ];
    try tauto; csimpl; by rewrite ?Hfg, IH.
Qed.

Lemma length_filter_related {A B} (R : A → B → Prop)
    (P : A → Prop) (Q : B → Prop)
    `{!∀ x, Decision (P x)} `{!∀ y, Decision (Q y)}
    (l : list A) (k : list B) :
  Forall2 R l k →
  (∀ x y, R x y → (P x ↔ Q y)) →
  length (filter P l) = length (filter Q k).
Proof.
  intros Hlk HR.
  rewrite <-(length_fmap (λ _, ()) (filter P l)).
  rewrite <-(length_fmap (λ _, ()) (filter Q k)). f_equal.
  apply (fmap_filter_related R); [done|]. intros x y Hxy. split; [eauto|done].
Qed.

Section Extras2.
Context `{Library}.

(** X8. The run depends on the cells of the eleven required columns only:
    two sources that pass the header check and whose records agree on
    these columns give the same result, the same printed lines and the same
    output file, whatever other columns they carry and in whatever order
    their headers name them. *)
Theorem required_columns_decide DEBUG src1 src2 w :
  schema_ok src1 →
  schema_ok src2 →
  Forall2 agree_on_required (src_records src1) (src_records src2) →
  main DEBUG src1 w = main DEBUG src2 w.
Proof.
  intros Hok1 Hok2 Hag. rewrite !main_run by done.
  assert (length (src_records src1) = length (src_records src2)) as ->
    by (by eapply Forall2_length).
  assert (length (passed_global src1) = length (passed_global src2)) as ->.
  { apply (length_filter_related agree_on_required); [done|].
    intros r1 r2 Hr. by rewrite (agree_global_mask r1 r2). }
  assert (length (kept src1) = length (kept src2)) as ->.
  { apply (length_filter_related agree_on_required); [done|].
    intros r1 r2 Hr. by rewrite (agree_keep r1 r2). }
  do 4 f_equal. rewrite <-!list_fmap_compose.
  apply (fmap_filter_related agree_on_required); [done|].
  intros r1 r2 Hr. split; [by rewrite (agree_keep r1 r2)|].
  simpl. by apply agree_output_line.
Qed.

(** X9. On a source with no records a run writes the header line alone and
    reports zero rows at every stage. *)
Theorem empty_input DEBUG h w :
  schema_ok (mkCsvSource h []) →
  main DEBUG (mkCsvSource h []) w
  = (inr tt,
     mkWorld
       (stdout w ++
        if DEBUG
        then [ "Reading CSV: ClearingHouse_2025.csv";
               "Total rows: 0";
               "Rows after seq>1 & status filters: 0";
               "Rows after removing Graduated=Y: 0";
               "✔ Output written → clearinghouse_filtered_output.csv" ]
        else [ "Reading CSV: ClearingHouse_2025.csv";
               "✔ Output written → clearinghouse_filtered_output.csv" ])
       (<["clearinghouse_filtered_output.csv" := mkTable output_cols []]>
          (files w))).
Proof. intros Hok. rewrite main_run by done. by destruct DEBUG. Qed.

Lemma add_column_prefix c cols : cols `prefix_of` add_column c cols.
Proof.
  unfold add_column. destruct (decide (c ∈ cols)); [done|].
  by apply prefix_app_r.
Qed.

Lemma add_column_NoDup c cols : NoDup cols → NoDup (add_column c cols).
Proof.
  intros Hnd. unfold add_column. destruct (decide (c ∈ cols)) as [|Hc]; [done|].
  apply NoDup_app. split; [done|]. split; [|apply NoDup_singleton].
  intros x Hx ->%list_elem_of_singleton. done.
Qed.

Lemma add_column_present c cols : c ∈ cols → add_column c cols = cols.
Proof. intros Hc. unfold add_column. by rewrite decide_True. Qed.

(** X10. Normalisation keeps the frame read from the file: when the header
    names the three columns lines 60-62 read, these lines print and write
    nothing, keep the rows and their labels, keep the existing columns in
    their order, add at most the two derived columns at the end, keep
    distinct column labels distinct, and change no cell outside College
    Sequence and the two derived columns. *)
Theorem normalize_keeps_frame src w :
  COL_COLLEGE_SEQ ∈ src_header src →
  COL_ENROLL_STATUS ∈ src_header src →
  COL_GRADUATED ∈ src_header src →
  ∃ df',
    normalize (read_csv src) w = (inr df', w) ∧
    labels df' = labels (read_csv src) ∧
    src_header src `prefix_of` columns df' ∧
    (∀ c, c ∈ columns df'
          ↔ c ∈ src_header src ∨ c = "_status_norm" ∨ c = "_grad_norm") ∧
    (NoDup (src_header src) → NoDup (columns df')) ∧
    Forall2
      (λ r r', ∀ c, c ≠ COL_COLLEGE_SEQ → c ≠ "_status_norm" →
                    c ≠ "_grad_norm" → r'.2 !!! c = r.2 !!! c)
      (rows (read_csv src)) (rows df').
Proof.
  intros Hs Hst Hg. exists (normalize_frame (read_csv src)).
  split; [by apply normalize_spec|]. split; [|split; [|split; [|split]]].
  - unfold labels, normalize_frame. cbn [rows].
    rewrite <-list_fmap_compose. apply list_fmap_ext. by intros _ [i r] _.
  - cbn [normalize_frame columns read_csv].
    rewrite (add_column_present _ _ Hs). etrans; apply add_column_prefix.
  - intros c. cbn [normalize_frame columns read_csv].
    rewrite !elem_of_add_column.
    split; [|tauto]. intros [->|[->|[->|?]]]; auto.
  - intros Hnd. cbn [normalize_frame columns read_csv].
    by do 3 apply add_column_NoDup.
  - cbn [normalize_frame rows]. apply Forall2_fmap_r, Forall_Forall2_diag.
    apply Forall_forall. intros [i r] _ c ???. simpl.
    by apply normalize_row_other.
Qed.

(** X12. The rows written for a concatenation are the rows written for
    its parts, one after the other: under one header, the file for the
    records l1 ++ l2 has as many lines as the files for l1 and for l2
    together, and line by line the same cells in the ten columns other than
    College Sequence, whose written form depends on the whole column. *)
Theorem output_of_concatenation DEBUG h l1 l2 w :
  schema_ok (mkCsvSource h (l1 ++ l2)) →
  ∃ t1 t2 t,
    output_of (main DEBUG (mkCsvSource h l1) w).2 = Some t1 ∧
    output_of (main DEBUG (mkCsvSource h l2) w).2 = Some t2 ∧
    output_of (main DEBUG (mkCsvSource h (l1 ++ l2)) w).2 = Some t ∧
    header t = header t1 ∧ header t = header t2 ∧
    length (body t) = length (body t1) + length (body t2) ∧
    Forall2
      (λ line line', ∀ k c, output_cols !! k = Some c →
                            c ≠ COL_COLLEGE_SEQ → line !! k = line' !! k)
      (body t) (body t1 ++ body t2).
Proof.
  intros Hok.
  assert (schema_ok (mkCsvSource h l1)) as Hok1 by exact Hok.
  assert (schema_ok (mkCsvSource h l2)) as Hok2 by exact Hok.
  rewrite !main_run by done. eexists _, _, _.
  split; [apply lookup_insert_eq|]. split; [apply lookup_insert_eq|].
  split; [apply lookup_insert_eq|]. split; [done|]. split; [done|].
  simpl. unfold kept. simpl. rewrite filter_app, !fmap_app.
  split; [by rewrite length_app|].
  by apply Forall_Forall2_diag, Forall_forall.
Qed.

(** X13. Reordering the records reorders the lines and nothing else: the
    lines written for a permutation of the records are a permutation of the
    lines written for the records. *)
Theorem output_of_permutation DEBUG h l1 l2 w :
  schema_ok (mkCsvSource h l1) →
  l1 ≡ₚ l2 →
  ∃ t1 t2,
    output_of (main DEBUG (mkCsvSource h l1) w).2 = Some t1 ∧
    output_of (main DEBUG (mkCsvSource h l2) w).2 = Some t2 ∧
    header t1 = header t2 ∧
    body t1 ≡ₚ body t2.
Proof.
  intros Hok Hperm.
  assert (schema_ok (mkCsvSource h l2)) as Hok2 by exact Hok.
  rewrite !main_run by done. eexists _, _.
  split; [apply lookup_insert_eq|]. split; [apply lookup_insert_eq|].
  split; [done|]. simpl. unfold kept. simpl. by rewrite Hperm.
Qed.

Lemma agree_eligible r1 r2 :
  agree_on_filter_columns r1 r2 → eligible r1 ↔ eligible r2.
Proof.
  intros (Hs & Hst & Hg).
  unfold eligible, seq_number, status_norm, grad_norm.
  by rewrite Hs, Hst, Hg.
Qed.

Lemma zip_related {A B} (R : A → B → Prop) (ns : list nat) l k :
  Forall2 R l k →
  Forall2 (λ p q, p.1 = q.1 ∧ R p.2 q.2) (zip ns l) (zip ns k).
Proof.
  intros Hlk. revert ns.
  induction Hlk as [|x y l k Hxy _ IH]; intros [|n ns]; simpl;
    constructor; auto.
Qed.

(** X14. Which rows are written depends on three cells only: two sources
    that pass the header check and whose records agree on College Sequence,
    Enrollment Status and Graduated? keep the rows at the same positions,
    whatever the other cells hold. *)
Theorem selection_reads_three_columns DEBUG src1 src2 w :
  schema_ok src1 →
  schema_ok src2 →
  Forall2 agree_on_filter_columns (src_records src1) (src_records src2) →
  ∃ df1 df2 w1 w2,
    filtered DEBUG src1 w = (inr df1, w1) ∧
    filtered DEBUG src2 w = (inr df2, w2) ∧
    labels df1 = labels df2.
Proof.
  intros Hok1 Hok2 Hag. eexists _, _, _, _.
  split; [by apply filtered_run|]. split; [by apply filtered_run|].
  unfold labels. rewrite !rows_final, <-!list_fmap_compose. unfold indexed.
  rewrite (Forall2_length _ _ _ Hag).
  eapply fmap_filter_related; [by apply zip_related|].
  intros [i r1] [j r2] [Hij Hr]. simpl in *. split; [|done].
  rewrite !keep_eligible. by apply agree_eligible.
Qed.
End Extras2.

(** * The further properties on concrete tables *)

Lemma schema_ok_reordered : schema_ok scenarios_reordered.
Proof. apply (bool_decide_unpack _). by vm_compute. Defined.

Lemma schema_ok_renamed : schema_ok scenarios_renamed.
Proof. apply (bool_decide_unpack _). by vm_compute. Defined.

Lemma reordered_agrees :
  Forall2 agree_on_required
    (src_records scenarios) (src_records scenarios_reordered).
Proof.
  unfold scenarios_reordered, scenarios. cbn [src_records fmap list_fmap].
  repeat (constructor;
          [intros c Hc;
           repeat (apply elem_of_cons in Hc as [->|Hc]; [by vm_compute|]);
           by apply elem_of_nil in Hc|]).
  constructor.
Defined.

Lemma renamed_agrees :
  Forall2 agree_on_filter_columns
    (src_records scenarios) (src_records scenarios_renamed).
Proof.
  unfold scenarios_renamed, scenarios. cbn [src_records fmap list_fmap].
  repeat (constructor; [by vm_compute|]).
  constructor.
Defined.

Lemma missing_columns_in_order_witness :
  ¬ schema_ok no_graduated_column ∧
  ∃ missing,
    (@main ascii_library true no_graduated_column empty_world).1
    = inl (ValueError missing) ∧
    missing ≠ [] ∧
    (∀ c, c ∈ missing
          ↔ c ∈ required_cols ∧ c ∉ src_header no_graduated_column) ∧
    missing `sublist_of` required_cols ∧
    NoDup missing.
Proof.
  split; [exact schema_not_ok_no_graduated|].
  exact (@missing_columns_in_order ascii_library true no_graduated_column
           empty_world schema_not_ok_no_graduated).
Defined.

Lemma stage_counts_witness :
  stdout (@main ascii_library true scenarios empty_world).2
  = stdout empty_world ++
    [ "Reading CSV: ClearingHouse_2025.csv";
      "Total rows: " +:+ pretty (length (src_records scenarios));
      "Rows after seq>1 & status filters: " +:+
        pretty (length (@passed_global ascii_library scenarios));
      "Rows after removing Graduated=Y: " +:+
        pretty (length (@kept ascii_library scenarios));
      "✔ Output written → clearinghouse_filtered_output.csv" ] ∧
  stdout (@main ascii_library false scenarios empty_world).2
  = stdout empty_world ++
    [ "Reading CSV: ClearingHouse_2025.csv";
      "✔ Output written → clearinghouse_filtered_output.csv" ] ∧
  length (@kept ascii_library scenarios)
  ≤ length (@passed_global ascii_library scenarios) ∧
  length (@passed_global ascii_library scenarios)
  ≤ length (src_records scenarios) ∧
  ∃ table,
    output_of (@main ascii_library true scenarios empty_world).2 = Some table ∧
    length (body table) = length (@kept ascii_library scenarios).
Proof.
  exact (@stage_counts ascii_library scenarios empty_world schema_ok_scenarios).
Defined.

Lemma other_files_untouched_witness :
  files (@main ascii_library true scenarios empty_world).2
    !! "ClearingHouse_2025.csv"
  = files empty_world !! "ClearingHouse_2025.csv".
Proof.
  apply (@other_files_untouched ascii_library true scenarios empty_world).
  apply (bool_decide_unpack _). by vm_compute.
Defined.

Lemma filters_commute_witness :
  ∃ df df_final,
    @normalize ascii_library (read_csv scenarios) empty_world
    = (inr df, empty_world) ∧
    (global_filters df ≫= @remove_graduated ascii_library) empty_world
    = (inr df_final, empty_world) ∧
    (@remove_graduated ascii_library df ≫= global_filters) empty_world
    = (inr df_final, empty_world).
Proof.
  exact (@filters_commute ascii_library scenarios empty_world
           schema_ok_scenarios).
Defined.

Lemma filters_idempotent_witness :
  ∃ df_final w1,
    @filtered ascii_library true scenarios empty_world = (inr df_final, w1) ∧
    ∀ w', global_filters df_final w' = (inr df_final, w') ∧
          @remove_graduated ascii_library df_final w' = (inr df_final, w').
Proof.
  exact (@filters_idempotent ascii_library true scenarios empty_world
           schema_ok_scenarios).
Defined.

Lemma written_lines_eligible_witness :
  ∃ table,
    output_of (@main ascii_library true missing_cells empty_world).2
    = Some table ∧
    Forall
      (λ line,
         (∀ k, output_cols !! k = Some COL_COLLEGE_SEQ →
               ∃ x, line !! k = Some (Num x) ∧ gt_one x) ∧
         (∀ k, output_cols !! k = Some COL_ENROLL_STATUS →
               ∃ v, line !! k = Some v ∧
                    isin1 ["W"; "D"]
                      (@str_strip1 ascii_library
                         (@str_upper1 ascii_library v)) = false) ∧
         (∀ k, output_cols !! k = Some COL_GRADUATED →
               ∃ v, line !! k = Some v ∧
                    ne1 "Y" (@str_strip1 ascii_library
                               (@str_upper1 ascii_library v)) = true))
      (body table).
Proof.
  exact (@written_lines_eligible ascii_library true missing_cells empty_world
           schema_ok_missing_cells).
Defined.

Lemma required_columns_decide_witness :
  @main ascii_library true scenarios empty_world
  = @main ascii_library true scenarios_reordered empty_world.
Proof.
  exact (@required_columns_decide ascii_library true scenarios
           scenarios_reordered empty_world schema_ok_scenarios
           schema_ok_reordered reordered_agrees).
Defined.

Lemma empty_input_witness :
  @main ascii_library true (mkCsvSource required_cols []) empty_world
  = (inr tt,
     mkWorld
       (stdout empty_world ++
        [ "Reading CSV: ClearingHouse_2025.csv";
          "Total rows: 0";
          "Rows after seq>1 & status filters: 0";
          "Rows after removing Graduated=Y: 0";
          "✔ Output written → clearinghouse_filtered_output.csv" ])
       (<["clearinghouse_filtered_output.csv" := mkTable output_cols []]>
          (files empty_world))).
Proof.
  apply (@empty_input ascii_library true required_cols empty_world).
  apply (bool_decide_unpack _). by vm_compute.
Defined.

Lemma normalize_keeps_frame_witness :
  ∃ df',
    @normalize ascii_library (read_csv scenarios) empty_world
    = (inr df', empty_world) ∧
    labels df' = labels (read_csv scenarios) ∧
    src_header scenarios `prefix_of` columns df' ∧
    (∀ c, c ∈ columns df'
          ↔ c ∈ src_header scenarios ∨ c = "_status_norm" ∨
            c = "_grad_norm") ∧
    (NoDup (src_header scenarios) → NoDup (columns df')) ∧
    Forall2
      (λ r r', ∀ c, c ≠ COL_COLLEGE_SEQ → c ≠ "_status_norm" →
                    c ≠ "_grad_norm" → r'.2 !!! c = r.2 !!! c)
      (rows (read_csv scenarios)) (rows df').
Proof.
  apply (@normalize_keeps_frame ascii_library scenarios empty_world);
    apply (bool_decide_unpack _); by vm_compute.
Defined.

Lemma output_of_concatenation_witness :
  ∃ t1 t2 t,
    output_of (@main ascii_library true
                 (mkCsvSource required_cols (src_records scenarios))
                 empty_world).2 = Some t1 ∧
    output_of (@main ascii_library true
                 (mkCsvSource required_cols (src_records missing_cells))
                 empty_world).2 = Some t2 ∧
    output_of (@main ascii_library true
                 (mkCsvSource required_cols
                    (src_records scenarios ++ src_records missing_cells))
                 empty_world).2 = Some t ∧
    header t = header t1 ∧ header t = header t2 ∧
    length (body t) = length (body t1) + length (body t2) ∧
    Forall2
      (λ line line', ∀ k c, output_cols !! k = Some c →
                            c ≠ COL_COLLEGE_SEQ → line !! k = line' !! k)
      (body t) (body t1 ++ body t2).
Proof.
  apply (@output_of_concatenation ascii_library true required_cols
           (src_records scenarios) (src_records missing_cells) empty_world).
  apply (bool_decide_unpack _). by vm_compute.
Defined.

Lemma output_of_permutation_witness :
  ∃ t1 t2,
    output_of (@main ascii_library true
                 (mkCsvSource required_cols (src_records missing_cells))
                 empty_world).2 = Some t1 ∧
    output_of (@main ascii_library true
                 (mkCsvSource required_cols
                    (reverse (src_records missing_cells)))
                 empty_world).2 = Some t2 ∧
    header t1 = header t2 ∧
    body t1 ≡ₚ body t2.
Proof.
  apply (@output_of_permutation ascii_library true required_cols
           (src_records missing_cells) (reverse (src_records missing_cells))
           empty_world).
  - apply (bool_decide_unpack _). by vm_compute.
  - symmetry. apply reverse_Permutation.
Defined.

Lemma selection_reads_three_columns_witness :
  ∃ df1 df2 w1 w2,
    @filtered ascii_library true scenarios empty_world = (inr df1, w1) ∧
    @filtered ascii_library true scenarios_renamed empty_world
    = (inr df2, w2) ∧
    labels df1 = labels df2.
Proof.
  exact (@selection_reads_three_columns ascii_library true scenarios
           scenarios_renamed empty_world schema_ok_scenarios
           schema_ok_renamed renamed_agrees).
Defined.
